(** * api_server.js: fallback generation, response interpretation and
      request handlers of the JiaoWoTong study-plan service.

    A shallow embedding of [src/api_server.js].

    - Strings are byte strings holding the UTF-8 encoding of the JavaScript
      string; [length] and [substring] count UTF-16 code units on them.
    - Request data coming from [express.json()] is a JSON [value]; the plans
      and papers the service builds itself are records.
    - Numbers that the code computes with ([reviewDays], the loop counter)
      are integers in [Z]; the fractions of a difficulty distribution are
      binary64 floats.  The heap is unbounded: a plan of any number of days
      can be built.
    - Code that can throw returns an [outcome]; code that talks to the
      upstream model or the file system runs in a state monad over a
      [world] that holds the credential, the replies of the model, the
      requests sent and the uploaded files.  Logging to the console and the
      text of the prompts are left out. *)

From Stdlib Require Import String Ascii List ZArith Bool Lia Arith.
From Stdlib Require Import DecimalString.
From Stdlib Require Import Floats.PrimFloat.
From Stdlib Require Import Sorting.Permutation.
Import ListNotations.

Set Warnings "-inexact-float,-register-all".

Local Open Scope string_scope.
Local Open Scope Z_scope.

(** ** Values, exceptions, outcomes *)

(** A JavaScript value as [JSON.parse] can produce it, plus [undefined] (what
    reading a missing property yields).  A number keeps the decimal that was
    written, [mantissa * 10 ^ exponent]. *)
Inductive value : Type :=
| VUndefined
| VNull
| VBool (b : bool)
| VNum (mantissa exponent : Z)
| VStr (s : string)
| VArr (items : list value)
| VObj (props : list (string * value)).

Record exn : Type := mkExn { exn_name : string; message : string }.

Definition TypeError (msg : string) : exn := mkExn "TypeError" msg.
Definition SyntaxError (msg : string) : exn := mkExn "SyntaxError" msg.
Definition Error (msg : string) : exn := mkExn "Error" msg.

(** The result of running a piece of code: it returns, it throws, or the
    model ran out of the fuel a loop was given ([OutOfFuel] is shown below
    never to happen for the fuel the definitions pass). *)
Inductive outcome (A : Type) : Type :=
| Returns (a : A)
| Throws (e : exn)
| OutOfFuel.

Arguments Returns {A} a.
Arguments Throws {A} e.
Arguments OutOfFuel {A}.

Definition obind {A B : Type} (c : outcome A) (k : A -> outcome B) : outcome B :=
  match c with
  | Returns a => k a
  | Throws e => Throws e
  | OutOfFuel => OutOfFuel
  end.

(** [try { c } catch (error) { handler error }] *)
Definition otry {A : Type} (c : outcome A) (handler : exn -> outcome A) : outcome A :=
  match c with
  | Throws e => handler e
  | other => other
  end.

Declare Scope outcome_scope.
Delimit Scope outcome_scope with outcome.
Notation "x <~ c ;; k" := (obind c (fun x => k))
  (at level 61, c at next level, right associativity) : outcome_scope.
Local Open Scope outcome_scope.

(** ** Strings *)

Definition dq : string := String (ascii_of_nat 34) EmptyString.
Definition nl : string := String (ascii_of_nat 10) EmptyString.
Definition backtick : string := String (ascii_of_nat 96) EmptyString.

(** [String.prototype.toLowerCase].  The ASCII capitals are mapped; bytes of
    multi-byte characters are kept.  (JavaScript also lowers cased letters
    outside ASCII; none of them lowers to a character of the four needles
    searched below, so the searches agree.) *)
Definition lower_char (c : ascii) : ascii :=
  let n := nat_of_ascii c in
  if ((65 <=? n) && (n <=? 90))%nat then ascii_of_nat (n + 32) else c.

Fixpoint toLowerCase (s : string) : string :=
  match s with
  | EmptyString => EmptyString
  | String c rest => String (lower_char c) (toLowerCase rest)
  end.

(** [strip_prefix p s] is what follows [p] in [s] when [s] starts with [p]. *)
Fixpoint strip_prefix (p s : string) : option string :=
  match p with
  | EmptyString => Some s
  | String a p' =>
      match s with
      | EmptyString => None
      | String b s' => if Ascii.eqb a b then strip_prefix p' s' else None
      end
  end.

Definition startsWith (s p : string) : bool :=
  match strip_prefix p s with Some _ => true | None => false end.

(** [s.includes(needle)] *)
Fixpoint includes (s needle : string) : bool :=
  if startsWith s needle then true
  else match s with
       | EmptyString => false
       | String _ rest => includes rest needle
       end.

(** Number of UTF-16 code units of the string a byte string encodes: one per
    character, two for a character of four bytes. *)
Fixpoint js_length (s : string) : Z :=
  match s with
  | EmptyString => 0
  | String c rest =>
      let n := nat_of_ascii c in
      (if (n <? 128)%nat then 1
       else if (n <? 192)%nat then 0
       else if (n <? 240)%nat then 1
       else 2) + js_length rest
  end.

(** [`${i}`] for an integer. *)
Definition string_of_Z (i : Z) : string := NilZero.string_of_int (Z.to_int i).

(** ** Property access and truthiness *)

(** The own property [key] of an object written as [props]: a repeated key
    keeps its last value. *)
Fixpoint find_prop (key : string) (props : list (string * value)) : option value :=
  match props with
  | [] => None
  | (k, v) :: rest =>
      match find_prop key rest with
      | Some later => Some later
      | None => if String.eqb k key then Some v else None
      end
  end.

Definition lookup_prop (key : string) (props : list (string * value)) : value :=
  match find_prop key props with
  | Some v => v
  | None => VUndefined
  end.

(** [v.key] for a key that is not an array index.  Objects hold the
    properties they were parsed with; arrays and strings have [length]. *)
Definition get_prop (v : value) (key : string) : outcome value :=
  match v with
  | VUndefined =>
      Throws (TypeError ("Cannot read properties of undefined (reading '" ++ key ++ "')"))
  | VNull =>
      Throws (TypeError ("Cannot read properties of null (reading '" ++ key ++ "')"))
  | VObj props => Returns (lookup_prop key props)
  | VArr items =>
      if String.eqb key "length"
      then Returns (VNum (Z.of_nat (List.length items)) 0)
      else Returns VUndefined
  | VStr s =>
      if String.eqb key "length" then Returns (VNum (js_length s) 0) else Returns VUndefined
  | VBool _ | VNum _ _ => Returns VUndefined
  end.

(** [ToBoolean] *)
Definition truthy (v : value) : bool :=
  match v with
  | VUndefined | VNull => false
  | VBool b => b
  | VNum m _ => negb (m =? 0)
  | VStr s => negb (String.eqb s "")
  | VArr _ | VObj _ => true
  end.

(** [v === 0] *)
Definition is_zero (v : value) : bool :=
  match v with
  | VNum m _ => m =? 0
  | _ => false
  end.

(** [Array.prototype.some], called as [files.some(callback)]: the callback
    runs on the elements in order and stops at the first one it accepts. *)
Fixpoint array_some (callback : value -> outcome bool) (items : list value) : outcome bool :=
  match items with
  | [] => Returns false
  | x :: rest =>
      b <~ callback x ;;
      if b then Returns true else array_some callback rest
  end.

Definition some (files : value) (callback : value -> outcome bool) : outcome bool :=
  match files with
  | VArr items => array_some callback items
  | VUndefined => Throws (TypeError "Cannot read properties of undefined (reading 'some')")
  | VNull => Throws (TypeError "Cannot read properties of null (reading 'some')")
  | _ => Throws (TypeError "files.some is not a function")
  end.

(** [a || b] on conditions that may throw. *)
Definition or_else (a b : outcome bool) : outcome bool :=
  x <~ a ;; if x then Returns true else b.

(** ** Fallback generators *)

(** [file.name.toLowerCase().includes(needle)] *)
Definition name_includes (file : value) (needle : string) : outcome bool :=
  name <~ get_prop file "name" ;;
  match name with
  | VStr s => Returns (includes (toLowerCase s) needle)
  | VUndefined =>
      Throws (TypeError "Cannot read properties of undefined (reading 'toLowerCase')")
  | VNull =>
      Throws (TypeError "Cannot read properties of null (reading 'toLowerCase')")
  | _ => Throws (TypeError "file.name.toLowerCase is not a function")
  end.

(** The callback of [files.some] in both generators. *)
Definition isMathFile (file : value) : outcome bool :=
  or_else (or_else (or_else (name_includes file "math")
                            (name_includes file "数学"))
                   (name_includes file "代数"))
          (name_includes file "几何").

Definition isMathContent (files : value) : outcome bool := some files isMathFile.

Inductive question_type : Type := single_choice | multiple_choice | judgment | essay.

(** A question of a test paper.  [q_options] is [None] when the object has no
    [options] property. *)
Record Question : Type := mkQuestion {
  q_id : Z;
  q_type : question_type;
  q_question : string;
  q_options : option (list string);
  q_correct_answer : string;
  q_explanation : string;
  q_difficulty : string;
  q_knowledge_points : list string
}.

Record PaperAnalysis : Type := mkPaperAnalysis {
  total_questions : Z;
  difficulty_distribution : list (string * float);
  knowledge_coverage : list string
}.

Record TestPaper : Type := mkTestPaper {
  title : string;
  questions : list Question;
  analysis : PaperAnalysis
}.

Definition mathPaper : TestPaper := {|
  title := "数学模拟测试卷（备用方案）";
  questions := [
    {| q_id := 1;
       q_type := single_choice;
       q_question := "若函数 f(x) = x² - 3x + 2，则 f(2) 的值为：";
       q_options := Some ["A. 0"; "B. 1"; "C. 2"; "D. 3"];
       q_correct_answer := "A";
       q_explanation := "将 x=2 代入函数 f(x) = x² - 3x + 2，得 f(2) = 2² - 3×2 + 2 = 4 - 6 + 2 = 0。";
       q_difficulty := "简单";
       q_knowledge_points := ["函数求值"; "代数运算"] |};
    {| q_id := 2;
       q_type := multiple_choice;
       q_question := "以下哪些是二次函数的性质？";
       q_options := Some ["A. 图像是抛物线"; "B. 最高次数为2"; "C. 一定有两个实根"; "D. 关于对称轴对称"];
       q_correct_answer := "A, B, D";
       q_explanation := "二次函数的图像是抛物线，最高次数为2，关于对称轴对称，但不一定有两个实根（当判别式小于0时无实根）。";
       q_difficulty := "中等";
       q_knowledge_points := ["二次函数"; "函数性质"] |};
    {| q_id := 3;
       q_type := judgment;
       q_question := "π 是有理数。";
       q_options := Some ["正确"; "错误"];
       q_correct_answer := "错误";
       q_explanation := "π 是无理数，不能表示为两个整数的比值。";
       q_difficulty := "简单";
       q_knowledge_points := ["无理数"; "实数分类"] |}
  ];
  analysis := {|
    total_questions := 3;
    difficulty_distribution := [("简单", 0.67%float); ("中等", 0.33%float); ("困难", 0%float)];
    knowledge_coverage := ["函数求值"; "代数运算"; "二次函数"; "函数性质"; "无理数"; "实数分类"]
  |}
|}.

Definition generalPaper : TestPaper := {|
  title := "模拟测试卷（备用方案）";
  questions := [
    {| q_id := 1;
       q_type := single_choice;
       q_question := "以下关于计算机网络的说法，正确的是：";
       q_options := Some ["A. 计算机网络只能用于传递数据"; "B. 计算机网络由硬件和软件组成";
                          "C. 计算机网络不需要协议"; "D. 计算机网络只能在局域网中使用"];
       q_correct_answer := "B";
       q_explanation := "计算机网络是由硬件设备和软件系统组成的，用于实现计算机之间的通信和资源共享。";
       q_difficulty := "简单";
       q_knowledge_points := ["计算机网络"; "网络组成"] |};
    {| q_id := 2;
       q_type := multiple_choice;
       q_question := "以下属于操作系统的是：";
       q_options := Some ["A. Windows"; "B. Linux"; "C. Office"; "D. macOS"];
       q_correct_answer := "A, B, D";
       q_explanation := "Windows、Linux和macOS都是操作系统，而Office是办公软件。";
       q_difficulty := "简单";
       q_knowledge_points := ["操作系统"; "软件分类"] |};
    {| q_id := 3;
       q_type := essay;
       q_question := "请简述计算机病毒的特点和预防措施。";
       q_options := None;
       q_correct_answer := "计算机病毒的特点包括：传染性、潜伏性、破坏性、隐蔽性等。预防措施包括：安装杀毒软件、定期更新系统、不随意打开陌生邮件附件、使用安全的网络环境等。";
       q_explanation := "本题主要考察对计算机病毒基本概念的理解和预防意识。";
       q_difficulty := "中等";
       q_knowledge_points := ["计算机安全"; "病毒防护"] |}
  ];
  analysis := {|
    total_questions := 3;
    difficulty_distribution := [("简单", 0.67%float); ("中等", 0.33%float); ("困难", 0%float)];
    knowledge_coverage := ["计算机网络"; "网络组成"; "操作系统"; "软件分类"; "计算机安全"; "病毒防护"]
  |}
|}.

(** [generateFallbackTestPaper(files, targetScore, questionCount, questionType)] *)
Definition generateFallbackTestPaper
    (files targetScore questionCount questionType : value) : outcome TestPaper :=
  isMath <~ isMathContent files ;;
  if isMath then Returns mathPaper else Returns generalPaper.

Record Slot : Type := mkSlot { time : string; activity : string; details : string }.

Record DailyPlan : Type := mkDailyPlan {
  day : Z;
  dp_title : string;
  objectives : list string;
  schedule : list Slot;
  key_points : list string;
  difficulty : string
}.

Record StudyPlan : Type := mkStudyPlan {
  plan_title : string;
  total_days : Z;
  daily_plans : list DailyPlan
}.

(** [i === 1 ? first : i === reviewDays ? last : middle] *)
Definition by_position {A : Type} (i reviewDays : Z) (first last middle : A) : A :=
  if i =? 1 then first else if i =? reviewDays then last else middle.

(** The object pushed by one round of the loop. *)
Definition dailyPlan (subject : string) (reviewDays i : Z) : DailyPlan := {|
  day := i;
  dp_title := "第" ++ string_of_Z i ++ "天：" ++ subject
              ++ by_position i reviewDays "基础知识" "综合复习" "重点内容" ++ "复习";
  objectives := [
    "掌握" ++ subject ++ by_position i reviewDays "基础知识" "综合应用" "核心概念";
    "完成相关练习题目";
    "整理知识点笔记"
  ];
  schedule := [
    {| time := "9:00-10:30"; activity := "知识点学习";
       details := "学习" ++ subject ++ "相关知识点，重点关注基本概念和原理" |};
    {| time := "10:45-12:00"; activity := "例题分析";
       details := "分析典型例题，理解解题思路" |};
    {| time := "14:00-15:30"; activity := "习题练习";
       details := "完成相关习题，巩固知识点" |};
    {| time := "15:45-17:00"; activity := "错题整理";
       details := "整理错题，分析错误原因" |};
    {| time := "19:00-20:30"; activity := "知识点回顾";
       details := "回顾当天学习内容，强化记忆" |}
  ];
  key_points := [
    subject ++ by_position i reviewDays "基础知识" "综合应用" "核心概念";
    "解题技巧和方法";
    "常见错误分析"
  ];
  difficulty := by_position i reviewDays "简单" "困难" "中等"
|}.

(** [for (let i = ...; i <= reviewDays; i++) dailyPlans.push(...)], entered
    with the current [i] and [dailyPlans]; one unit of fuel per round. *)
Fixpoint for_days (fuel : nat) (subject : string) (reviewDays i : Z)
    (dailyPlans : list DailyPlan) : outcome (list DailyPlan) :=
  if i <=? reviewDays then
    match fuel with
    | O => OutOfFuel
    | S fuel' =>
        for_days fuel' subject reviewDays (i + 1)
                 (dailyPlans ++ [dailyPlan subject reviewDays i])
    end
  else Returns dailyPlans.

(** [generateFallbackStudyPlan(files, targetScore, reviewDays)], for an
    integer [reviewDays]. *)
Definition generateFallbackStudyPlan
    (files targetScore : value) (reviewDays : Z) : outcome StudyPlan :=
  isMath <~ isMathContent files ;;
  let subject := if isMath then "数学" else "计算机基础" in
  dailyPlans <~ for_days (Z.to_nat reviewDays) subject reviewDays 1 [] ;;
  Returns {| plan_title := subject ++ "个性化复习计划";
             total_days := reviewDays;
             daily_plans := dailyPlans |}.

(** A file as the service builds it: the [{name, analysis}] entries the
    analysis endpoint returns and the clients send back. *)
Record FileAnalysis : Type := mkFileAnalysis { fa_name : string; fa_analysis : string }.

Definition file_value (f : FileAnalysis) : value :=
  VObj [("name", VStr (fa_name f)); ("analysis", VStr (fa_analysis f))].

Definition files_value (fs : list FileAnalysis) : value := VArr (map file_value fs).

(** ** [JSON.parse] *)

(** What a parsing function of the recursive descent gives on a text: a
    result and the text that follows it, a syntax error, or no fuel left. *)
Inductive parsed (A : Type) : Type :=
| POk (a : A) (rest : string)
| PErr
| PFuel.

Arguments POk {A} a rest.
Arguments PErr {A}.
Arguments PFuel {A}.

Definition is_ws (c : ascii) : bool :=
  let n := nat_of_ascii c in
  ((n =? 32) || (n =? 9) || (n =? 10) || (n =? 13))%nat.

Definition is_digit (c : ascii) : bool :=
  let n := nat_of_ascii c in ((48 <=? n) && (n <=? 57))%nat.

Definition digit_value (c : ascii) : Z := Z.of_nat (nat_of_ascii c) - 48.

Definition hex_value (c : ascii) : option Z :=
  let n := nat_of_ascii c in
  if ((48 <=? n) && (n <=? 57))%nat then Some (Z.of_nat n - 48)
  else if ((65 <=? n) && (n <=? 70))%nat then Some (Z.of_nat n - 55)
  else if ((97 <=? n) && (n <=? 102))%nat then Some (Z.of_nat n - 87)
  else None.

Fixpoint skip_ws (s : string) : string :=
  match s with
  | String c rest => if is_ws c then skip_ws rest else s
  | EmptyString => s
  end.

(** The longest run of digits at the head of [s], and what follows it. *)
Fixpoint take_digits (s : string) : string * string :=
  match s with
  | String c rest =>
      if is_digit c
      then let (ds, tail) := take_digits rest in (String c ds, tail)
      else (EmptyString, s)
  | EmptyString => (EmptyString, s)
  end.

Fixpoint digits_value (acc : Z) (ds : string) : Z :=
  match ds with
  | EmptyString => acc
  | String c rest => digits_value (10 * acc + digit_value c) rest
  end.

Definition byte (n : Z) : ascii := ascii_of_nat (Z.to_nat n).

(** UTF-8 bytes of the code unit of a [\uXXXX] escape (the two halves of a
    surrogate pair are encoded one by one). *)
Definition utf8_of_unit (u : Z) : string :=
  if u <? 128 then String (byte u) EmptyString
  else if u <? 2048 then
    String (byte (192 + u / 64)) (String (byte (128 + u mod 64)) EmptyString)
  else
    String (byte (224 + u / 4096))
      (String (byte (128 + (u / 64) mod 64)) (String (byte (128 + u mod 64)) EmptyString)).

Definition cons_parsed (pre : string) (p : parsed string) : parsed string :=
  match p with
  | POk str rest => POk (pre ++ str) rest
  | PErr => PErr
  | PFuel => PFuel
  end.

Definition quote : ascii := ascii_of_nat 34.
Definition backslash : ascii := ascii_of_nat 92.

(** The character a two-character escape stands for. *)
Definition escape_char (e : ascii) : option string :=
  if Ascii.eqb e quote then Some (String quote EmptyString)
  else if Ascii.eqb e backslash then Some (String backslash EmptyString)
  else if Ascii.eqb e "/"%char then Some "/"
  else if Ascii.eqb e "b"%char then Some (String (ascii_of_nat 8) EmptyString)
  else if Ascii.eqb e "f"%char then Some (String (ascii_of_nat 12) EmptyString)
  else if Ascii.eqb e "n"%char then Some (String (ascii_of_nat 10) EmptyString)
  else if Ascii.eqb e "r"%char then Some (String (ascii_of_nat 13) EmptyString)
  else if Ascii.eqb e "t"%char then Some (String (ascii_of_nat 9) EmptyString)
  else None.

(** The characters of a string literal after its opening quote, up to and
    including the closing one. *)
Fixpoint parse_string_body (s : string) : parsed string :=
  match s with
  | EmptyString => PErr
  | String c rest =>
      if Ascii.eqb c quote then POk EmptyString rest
      else if Ascii.eqb c backslash then
        match rest with
        | EmptyString => PErr
        | String e rest1 =>
            if Ascii.eqb e "u"%char then
              match rest1 with
              | String h1 (String h2 (String h3 (String h4 rest5))) =>
                  match hex_value h1, hex_value h2, hex_value h3, hex_value h4 with
                  | Some a, Some b, Some c', Some d =>
                      cons_parsed (utf8_of_unit (((a * 16 + b) * 16 + c') * 16 + d))
                                  (parse_string_body rest5)
                  | _, _, _, _ => PErr
                  end
              | _ => PErr
              end
            else
              match escape_char e with
              | Some str => cons_parsed str (parse_string_body rest1)
              | None => PErr
              end
        end
      else if (nat_of_ascii c <? 32)%nat then PErr
      else cons_parsed (String c EmptyString) (parse_string_body rest)
  end.

(** The fraction of a number, a point and digits, if there is one. *)
Definition parse_fraction (s : string) : option (string * string) :=
  match strip_prefix "." s with
  | Some r =>
      let (fs, r') := take_digits r in
      if String.eqb fs "" then None else Some (fs, r')
  | None => Some ("", s)
  end.

Definition parse_sign (s : string) : Z * string :=
  match strip_prefix "-" s with
  | Some r => (-1, r)
  | None =>
      match strip_prefix "+" s with
      | Some r => (1, r)
      | None => (1, s)
      end
  end.

(** The exponent of a number, [e] or [E], a sign and digits, if there is one. *)
Definition parse_exponent (s : string) : option (Z * string) :=
  match (match strip_prefix "e" s with Some r => Some r | None => strip_prefix "E" s end) with
  | Some r =>
      let (sign, r1) := parse_sign r in
      let (es, r2) := take_digits r1 in
      if String.eqb es "" then None else Some (sign * digits_value 0 es, r2)
  | None => Some (0, s)
  end.

(** A JSON number: an optional minus sign; the integer part, a single zero
    or digits that start with a non-zero one; an optional fraction; an
    optional exponent. *)
Definition parse_number (s : string) : parsed value :=
  let (negative, s1) :=
    match strip_prefix "-" s with
    | Some r => (true, r)
    | None => (false, s)
    end in
  let (int_part, s2) :=
    match strip_prefix "0" s1 with
    | Some r => ("0", r)
    | None => take_digits s1
    end in
  if String.eqb int_part "" then PErr else
  match parse_fraction s2 with
  | None => PErr
  | Some (frac_part, s3) =>
      match parse_exponent s3 with
      | None => PErr
      | Some (e, s4) =>
          let m := digits_value 0 (int_part ++ frac_part) in
          POk (VNum (if negative then - m else m)
                    (e - Z.of_nat (String.length frac_part))) s4
      end
  end.

Definition parse_literal (word : string) (v : value) (s : string) : parsed value :=
  match strip_prefix word s with
  | Some rest => POk v rest
  | None => PErr
  end.

Definition map_parsed {A B : Type} (f : A -> B) (p : parsed A) : parsed B :=
  match p with
  | POk a rest => POk (f a) rest
  | PErr => PErr
  | PFuel => PFuel
  end.

(** One value; the elements of an array from its first value on; the members
    of an object from its first member on. *)
Fixpoint parse_value (fuel : nat) (s : string) : parsed value :=
  match fuel with
  | O => PFuel
  | S fuel' =>
      match skip_ws s with
      | EmptyString => PErr
      | String c rest =>
          if Ascii.eqb c "{"%char then
            match strip_prefix "}" (skip_ws rest) with
            | Some rest' => POk (VObj []) rest'
            | None => map_parsed VObj (parse_members fuel' rest)
            end
          else if Ascii.eqb c "["%char then
            match strip_prefix "]" (skip_ws rest) with
            | Some rest' => POk (VArr []) rest'
            | None => map_parsed VArr (parse_elements fuel' rest)
            end
          else if Ascii.eqb c quote then map_parsed VStr (parse_string_body rest)
          else if Ascii.eqb c "t"%char then parse_literal "true" (VBool true) (String c rest)
          else if Ascii.eqb c "f"%char then parse_literal "false" (VBool false) (String c rest)
          else if Ascii.eqb c "n"%char then parse_literal "null" VNull (String c rest)
          else parse_number (String c rest)
      end
  end

with parse_elements (fuel : nat) (s : string) : parsed (list value) :=
  match fuel with
  | O => PFuel
  | S fuel' =>
      match parse_value fuel' s with
      | POk v rest =>
          match strip_prefix "," (skip_ws rest) with
          | Some rest' => map_parsed (cons v) (parse_elements fuel' rest')
          | None =>
              match strip_prefix "]" (skip_ws rest) with
              | Some rest' => POk [v] rest'
              | None => PErr
              end
          end
      | PErr => PErr
      | PFuel => PFuel
      end
  end

with parse_members (fuel : nat) (s : string) : parsed (list (string * value)) :=
  match fuel with
  | O => PFuel
  | S fuel' =>
      match strip_prefix dq (skip_ws s) with
      | None => PErr
      | Some rest =>
          match parse_string_body rest with
          | POk key rest1 =>
              match strip_prefix ":" (skip_ws rest1) with
              | None => PErr
              | Some rest2 =>
                  match parse_value fuel' rest2 with
                  | POk v rest3 =>
                      match strip_prefix "," (skip_ws rest3) with
                      | Some rest4 => map_parsed (cons (key, v)) (parse_members fuel' rest4)
                      | None =>
                          match strip_prefix "}" (skip_ws rest3) with
                          | Some rest4 => POk [(key, v)] rest4
                          | None => PErr
                          end
                      end
                  | PErr => PErr
                  | PFuel => PFuel
                  end
              end
          | PErr => PErr
          | PFuel => PFuel
          end
      end
  end.

Definition parse_fuel (text : string) : nat := 2 * String.length text + 2.

(** [JSON.parse(text)] *)
Definition JSON_parse (text : string) : outcome value :=
  match parse_value (parse_fuel text) text with
  | POk v rest =>
      match skip_ws rest with
      | EmptyString => Returns v
      | String _ _ => Throws (SyntaxError "Unexpected non-whitespace character after JSON")
      end
  | PErr => Throws (SyntaxError "Unexpected token in JSON")
  | PFuel => OutOfFuel
  end.

(** ** Response interpretation *)

(** The first occurrence of [needle] in [s]: what stands before it and what
    follows it. *)
Fixpoint find_first (needle s : string) : option (string * string) :=
  match strip_prefix needle s with
  | Some after => Some (EmptyString, after)
  | None =>
      match s with
      | EmptyString => None
      | String c rest =>
          match find_first needle rest with
          | Some (before, after) => Some (String c before, after)
          | None => None
          end
      end
  end.

(** The last occurrence of [needle] in [s]. *)
Fixpoint find_last (needle s : string) : option (string * string) :=
  match s with
  | EmptyString => None
  | String c rest =>
      match find_last needle rest with
      | Some (before, after) => Some (String c before, after)
      | None =>
          match strip_prefix needle s with
          | Some after => Some (EmptyString, after)
          | None => None
          end
      end
  end.

(** What [String.prototype.match] returns on success: the matched text and
    the first capture group ([None] when the pattern has none). *)
Record regex_match : Type := mkMatch { m0 : string; m1 : option string }.

Definition fence_open : string := backtick ++ backtick ++ backtick ++ "json" ++ nl.
Definition fence_close : string := nl ++ backtick ++ backtick ++ backtick.

(** [response.match(/```json\n([\s\S]*?)\n```/)]: the leftmost opening
    fence that a closing fence follows, and, the group being lazy, the
    nearest closing fence after it.  If a closing fence follows any opening
    fence, one follows the first. *)
Definition match_fenced (response : string) : option regex_match :=
  match find_first fence_open response with
  | None => None
  | Some (_, after) =>
      match find_first fence_close after with
      | None => None
      | Some (inner, _) => Some (mkMatch (fence_open ++ inner ++ fence_close) (Some inner))
      end
  end.

(** [response.match(/\{[\s\S]*\}/)]: the leftmost opening brace that a
    closing brace follows, and, the star being greedy, the last closing
    brace of the text. *)
Definition match_braces (response : string) : option regex_match :=
  match find_first "{" response with
  | None => None
  | Some (_, after) =>
      match find_last "}" after with
      | None => None
      | Some (inner, _) => Some (mkMatch ("{" ++ inner ++ "}") None)
      end
  end.

(** [a || b] on the results of two matches. *)
Definition or_match (a b : option regex_match) : option regex_match :=
  match a with
  | Some m => Some m
  | None => b
  end.

(** [jsonMatch[1] || jsonMatch[0]]: the group unless it is missing or empty. *)
Definition group_or_whole (m : regex_match) : string :=
  match m1 m with
  | Some g => if String.eqb g "" then m0 m else g
  | None => m0 m
  end.

Definition raw_envelope (response : string) : value :=
  VObj [("raw_response", VStr response)].

(** The [try { ... } catch (error) { ... }] block that ends both
    [generateStudyPlanWithDeepSeek] and [generateTestPaperWithDeepSeek]. *)
Definition extractStructured (response : string) : outcome value :=
  otry
    (let jsonMatch := or_match (match_fenced response) (match_braces response) in
     match jsonMatch with
     | Some m => JSON_parse (group_or_whole m)
     | None => Returns (raw_envelope response)
     end)
    (fun error => Returns (raw_envelope response)).

(** ** The world: upstream model, credential, uploaded files *)

(** What one request to the chat-completion endpoint ends in, once
    [response.data.choices[0].message.content] has been read: the text, or
    the error thrown on the way.  (A request that never completes is not
    modelled.) *)
Inductive reply : Type :=
| Content (text : string)
| Failure (error : exn).

(** A request as far as the model keeps it.  The user prompt is left out:
    the replies are an oracle of the world and no property proved here
    depends on what was sent. *)
Record request : Type := mkRequest { system_prompt : string; temperature : float }.

Record world : Type := mkWorld {
  DEEPSEEK_KEY : option string;      (* process.env.DEEPSEEK_KEY *)
  upstream : nat -> reply;           (* the reply to the k-th request *)
  requests : list request;           (* the requests sent so far *)
  disk : list (string * string)      (* uploads/: path and decoded content *)
}.

Definition M (A : Type) : Type := world -> outcome A * world.

Definition ret {A : Type} (a : A) : M A := fun w => (Returns a, w).

Definition throw {A : Type} (e : exn) : M A := fun w => (Throws e, w).

Definition lift {A : Type} (c : outcome A) : M A := fun w => (c, w).

Definition bind {A B : Type} (c : M A) (k : A -> M B) : M B :=
  fun w =>
    match c w with
    | (Returns a, w') => k a w'
    | (Throws e, w') => (Throws e, w')
    | (OutOfFuel, w') => (OutOfFuel, w')
    end.

(** [try { c } catch (error) { handler error }]: what [c] did to the world
    before it threw stays done. *)
Definition try_catch {A : Type} (c : M A) (handler : exn -> M A) : M A :=
  fun w =>
    match c w with
    | (Throws e, w') => handler e w'
    | other => other
    end.

Declare Scope M_scope.
Delimit Scope M_scope with M.
Notation "x <- c ;; k" := (bind c (fun x => k))
  (at level 61, c at next level, right associativity) : M_scope.
Local Open Scope M_scope.

(** [!DEEPSEEK_KEY] *)
Definition key_missing (key : option string) : bool :=
  match key with
  | None => true
  | Some k => String.eqb k ""
  end.

(** [axios.post(DEEPSEEK_API_URL, ...)] followed by the read of the content. *)
Definition axios_post (req : request) : M string :=
  fun w =>
    let w' := mkWorld (DEEPSEEK_KEY w) (upstream w) (requests w ++ [req]) (disk w) in
    match upstream w (List.length (requests w)) with
    | Content text => (Returns text, w')
    | Failure error => (Throws error, w')
    end.

(** [callDeepSeekAPI(messages, temperature)] *)
Definition callDeepSeekAPI (system : string) (temp : float) : M string :=
  try_catch
    (fun w =>
       if key_missing (DEEPSEEK_KEY w)
       then throw (Error "DeepSeek API密钥未配置") w
       else axios_post (mkRequest system temp) w)
    (fun error => throw error).

(** [fs.readFileSync(path, 'utf-8')] and [fs.unlinkSync(path)] *)
Fixpoint disk_find (path : string) (files : list (string * string)) : option string :=
  match files with
  | [] => None
  | (p, content) :: rest => if String.eqb p path then Some content else disk_find path rest
  end.

Definition disk_remove (path : string) (files : list (string * string))
  : list (string * string) :=
  filter (fun entry => negb (String.eqb (fst entry) path)) files.

Definition readFileSync (path : string) : M string :=
  fun w =>
    match disk_find path (disk w) with
    | Some content => (Returns content, w)
    | None => (Throws (Error ("ENOENT: no such file or directory, open '" ++ path ++ "'")), w)
    end.

Definition unlinkSync (path : string) : M unit :=
  fun w =>
    match disk_find path (disk w) with
    | Some _ =>
        (Returns tt, mkWorld (DEEPSEEK_KEY w) (upstream w) (requests w) (disk_remove path (disk w)))
    | None => (Throws (Error ("ENOENT: no such file or directory, unlink '" ++ path ++ "'")), w)
    end.

(** [content.substring(0, units)]: the characters that fit in the first
    [units] UTF-16 code units.  (Where JavaScript would cut a character of
    two units in half, the character is dropped.) *)
Fixpoint substring_0 (units : nat) (s : string) : string :=
  match s with
  | EmptyString => EmptyString
  | String c rest =>
      let n := nat_of_ascii c in
      if ((128 <=? n) && (n <? 192))%nat then String c (substring_0 units rest)
      else
        let cost := if (n <? 240)%nat then 1%nat else 2%nat in
        if (cost <=? units)%nat then String c (substring_0 (units - cost) rest)
        else EmptyString
  end.

(** ** Calls to the model *)

(** An entry of [fileContents]. *)
Record FileContent : Type := mkFileContent {
  fc_name : string;
  fc_type : string;
  fc_content : string
}.

(** The system messages of the three prompts. *)
Definition system_analysis : string := "你是一位专业的教学助手，擅长分析学习资料".
Definition system_plan : string := "你是一位专业的教学规划师，擅长制定学习计划".
Definition system_paper : string := "你是一位专业的出题老师，擅长设计考试题目".

(** The loop of [analyzeFilesWithDeepSeek], entered with the files still to
    analyse and the summaries pushed so far. *)
Fixpoint analyze_loop (files : list FileContent) (fileSummaries : list FileAnalysis)
  : M (list FileAnalysis) :=
  match files with
  | [] => ret fileSummaries
  | file :: rest =>
      analysis <- callDeepSeekAPI system_analysis 0.7%float ;;
      analyze_loop rest (fileSummaries ++ [mkFileAnalysis (fc_name file) analysis])
  end.

(** [analyzeFilesWithDeepSeek(files)] *)
Definition analyzeFilesWithDeepSeek (files : list FileContent) : M (list FileAnalysis) :=
  analyze_loop files [].

(** [Array.prototype.map], called as [files.map(callback)]. *)
Fixpoint array_map {A : Type} (callback : value -> outcome A) (items : list value)
  : outcome (list A) :=
  match items with
  | [] => Returns []
  | x :: rest =>
      y <~ callback x ;;
      ys <~ array_map callback rest ;;
      Returns (y :: ys)
  end.

Definition map_files {A : Type} (files : value) (callback : value -> outcome A)
  : outcome (list A) :=
  match files with
  | VArr items => array_map callback items
  | VUndefined => Throws (TypeError "Cannot read properties of undefined (reading 'map')")
  | VNull => Throws (TypeError "Cannot read properties of null (reading 'map')")
  | _ => Throws (TypeError "files.map is not a function")
  end.

(** The property reads of [`文件: ${f.name}\n分析: ${f.analysis || '未分析'}`];
    the text is not kept. *)
Definition plan_summary (f : value) : outcome unit :=
  _ <~ get_prop f "name" ;;
  _ <~ get_prop f "analysis" ;;
  Returns tt.

(** The property reads of
    [`文件: ${f.name}\n内容: ${f.content || f.analysis || '未分析'}`]. *)
Definition paper_summary (f : value) : outcome unit :=
  _ <~ get_prop f "name" ;;
  content <~ get_prop f "content" ;;
  if truthy content then Returns tt
  else _ <~ get_prop f "analysis" ;; Returns tt.

(** [generateStudyPlanWithDeepSeek(files, targetScore, reviewDays)] *)
Definition generateStudyPlanWithDeepSeek
    (files targetScore : value) (reviewDays : Z) : M value :=
  _ <- lift (map_files files plan_summary) ;;
  response <- callDeepSeekAPI system_plan 0.7%float ;;
  lift (extractStructured response).

(** [generateTestPaperWithDeepSeek(files, targetScore, questionCount, questionType)] *)
Definition generateTestPaperWithDeepSeek
    (files targetScore questionCount questionType : value) : M value :=
  _ <- lift (map_files files paper_summary) ;;
  response <- callDeepSeekAPI system_paper 0.5%float ;;
  lift (extractStructured response).

(** ** Request handlers *)

(** The study plan of a response: what the model's answer was read as, or a
    plan of the fallback generator. *)
Inductive plan_payload : Type :=
| ModelPlan (v : value)
| FallbackPlan (p : StudyPlan).

Inductive paper_payload : Type :=
| ModelPaper (v : value)
| FallbackPaper (p : TestPaper).

(** The JSON sent back.  [warning] is [None] when the property is absent. *)
Inductive body : Type :=
| ErrorBody (error : string) (details : option string)
| AnalysisBody (success : bool) (files : list (string * string))
               (analysis : list FileAnalysis) (warning : option string)
| StudyPlanBody (success : bool) (studyPlan : plan_payload) (warning : option string)
| TestPaperBody (success : bool) (testPaper : paper_payload) (warning : option string).

Record response : Type := mkResponse { status : Z; payload : body }.

(** [res.status(code).json(b)] and [res.json(b)] *)
Definition res_status_json (code : Z) (b : body) : M response := ret (mkResponse code b).
Definition res_json (b : body) : M response := ret (mkResponse 200 b).

(** A file as multer hands it over. *)
Record UploadedFile : Type := mkUploadedFile {
  originalname : string;
  mimetype : string;
  path : string
}.

(** One round of the loop that reads the uploaded files: the [try], its
    [catch] and its [finally]. *)
Definition read_file (file : UploadedFile) : M FileContent :=
  entry <- try_catch
             (content <- readFileSync (path file) ;;
              ret (mkFileContent (originalname file) (mimetype file)
                                 (substring_0 5000 content)))
             (fun readError =>
                ret (mkFileContent (originalname file) (mimetype file)
                                   ("无法读取文件内容: " ++ message readError))) ;;
  _ <- try_catch (unlinkSync (path file)) (fun unlinkError => ret tt) ;;
  ret entry.

Fixpoint read_loop (files : list UploadedFile) (fileContents : list FileContent)
  : M (list FileContent) :=
  match files with
  | [] => ret fileContents
  | file :: rest =>
      entry <- read_file file ;;
      read_loop rest (fileContents ++ [entry])
  end.

Definition name_and_type (f : FileContent) : string * string := (fc_name f, fc_type f).

(** [apiError.message || 'API调用错误'] *)
Definition message_or_default (e : exn) : string :=
  if String.eqb (message e) "" then "API调用错误" else message e.

(** [POST /api/analyze-files]; [files] is [req.files]. *)
Definition analyzeFiles (files : option (list UploadedFile)) : M response :=
  try_catch
    (match files with
     | None | Some [] => res_status_json 400 (ErrorBody "未上传文件" None)
     | Some files =>
         fileContents <- read_loop files [] ;;
         try_catch
           (analysis <- analyzeFilesWithDeepSeek fileContents ;;
            res_json (AnalysisBody true (map name_and_type fileContents) analysis None))
           (fun apiError =>
              res_json
                (AnalysisBody true (map name_and_type fileContents)
                   (map (fun f => mkFileAnalysis (fc_name f)
                                    ("文件分析失败: " ++ message_or_default apiError))
                        fileContents)
                   (Some "文件分析失败，使用备用方案生成模拟卷")))
     end)
    (fun error =>
       res_status_json 500 (ErrorBody "文件分析失败" (Some (message error)))).

(** [!files || files.length === 0] *)
Definition no_files (files : value) : outcome bool :=
  if negb (truthy files) then Returns true
  else len <~ get_prop files "length" ;; Returns (is_zero len).

(** The body of a study-plan request, [reviewDays] being an integer. *)
Record StudyPlanRequest : Type := mkStudyPlanRequest {
  sp_files : value;
  sp_targetScore : value;
  sp_reviewDays : Z
}.

(** [POST /api/generate-study-plan]; [body] is [req.body], [None] when it is
    [undefined]. *)
Definition generateStudyPlan (body : option StudyPlanRequest) : M response :=
  try_catch
    (match body with
     | None =>
         throw (TypeError "Cannot destructure property 'files' of 'req.body' as it is undefined.")
     | Some b =>
         let files := sp_files b in
         let targetScore := sp_targetScore b in
         let reviewDays := sp_reviewDays b in
         missing <- lift (no_files files) ;;
         if missing then res_status_json 400 (ErrorBody "没有文件内容" None)
         else
           try_catch
             (studyPlan <- generateStudyPlanWithDeepSeek files targetScore reviewDays ;;
              res_json (StudyPlanBody true (ModelPlan studyPlan) None))
             (fun apiError =>
                fallbackPlan <- lift (generateFallbackStudyPlan files targetScore reviewDays) ;;
                res_json (StudyPlanBody true (FallbackPlan fallbackPlan)
                            (Some "API调用失败，使用备用方案生成复习计划")))
     end)
    (fun error =>
       fallbackPlan <- lift (generateFallbackStudyPlan (VArr []) (VNum 85 0) 7) ;;
       res_json (StudyPlanBody true (FallbackPlan fallbackPlan)
                   (Some "生成失败，使用备用方案"))).

Record TestPaperRequest : Type := mkTestPaperRequest {
  tp_files : value;
  tp_targetScore : value;
  tp_questionCount : value;
  tp_questionType : value
}.

(** [POST /api/generate-test-paper] *)
Definition generateTestPaper (body : option TestPaperRequest) : M response :=
  try_catch
    (match body with
     | None =>
         throw (TypeError "Cannot destructure property 'files' of 'req.body' as it is undefined.")
     | Some b =>
         let files := tp_files b in
         let targetScore := tp_targetScore b in
         let questionCount := tp_questionCount b in
         let questionType := tp_questionType b in
         missing <- lift (no_files files) ;;
         if missing then res_status_json 400 (ErrorBody "没有文件内容" None)
         else
           try_catch
             (testPaper <- generateTestPaperWithDeepSeek files targetScore questionCount
                                                         questionType ;;
              res_json (TestPaperBody true (ModelPaper testPaper) None))
             (fun apiError =>
                fallbackPaper <- lift (generateFallbackTestPaper files targetScore questionCount
                                                                 questionType) ;;
                res_json (TestPaperBody true (FallbackPaper fallbackPaper)
                            (Some "API调用失败，使用备用方案生成模拟卷")))
     end)
    (fun error =>
       fallbackPaper <- lift (generateFallbackTestPaper (VArr []) (VNum 85 0) (VNum 3 0)
                                                        (VStr "all")) ;;
       res_json (TestPaperBody true (FallbackPaper fallbackPaper)
                   (Some "生成失败，使用备用方案"))).

(** ** Vocabulary of the statements *)

(** The [k] integers from [i] on. *)
Fixpoint days_from (i : Z) (k : nat) : list Z :=
  match k with
  | O => []
  | S k' => i :: days_from (i + 1) k'
  end.

Definition needles : list string := ["math"; "数学"; "代数"; "几何"].

(** [name] has a part that reads [needle] once put in lower case. *)
Definition contains_ci (name needle : string) : Prop :=
  exists before part after,
    name = before ++ part ++ after /\ toLowerCase part = needle.

Definition math_name (name : string) : Prop :=
  exists needle, In needle needles /\ contains_ci name needle.

Definition math_nameb (name : string) : bool :=
  existsb (includes (toLowerCase name)) needles.

(** Some file of the list has such a name. *)
Definition math_files (files : list FileAnalysis) : Prop :=
  Exists (fun f => math_name (fa_name f)) files.

(** The plan the loop builds for a subject and a number of days. *)
Definition planFor (subject : string) (reviewDays : Z) : StudyPlan := {|
  plan_title := subject ++ "个性化复习计划";
  total_days := reviewDays;
  daily_plans := map (dailyPlan subject reviewDays) (days_from 1 (Z.to_nat reviewDays))
|}.

(** The fractions of a difficulty distribution, added up from zero in the
    order of the keys. *)
Definition sum_fractions (distribution : list (string * float)) : float :=
  fold_left (fun acc entry => (acc + snd entry)%float) distribution 0%float.

(** [file.name] is a string. *)
Definition has_string_name (file : value) : Prop :=
  exists s, get_prop file "name" = Returns (VStr s).

(** [needle] occurs in [s] between [before] and [after], and nowhere
    further left (first) or further right (last). *)
Definition first_occurrence (needle s before after : string) : Prop :=
  s = before ++ needle ++ after
  /\ forall b a, s = b ++ needle ++ a -> (String.length before <= String.length b)%nat.

Definition last_occurrence (needle s before after : string) : Prop :=
  s = before ++ needle ++ after
  /\ forall b a, s = b ++ needle ++ a -> (String.length b <= String.length before)%nat.

(** [inner] is the interior of the first fenced block of [response]: what
    stands between the first opening fence and the nearest closing fence
    after it. *)
Definition fenced_block (response inner : string) : Prop :=
  exists before after rest,
    first_occurrence fence_open response before after
    /\ first_occurrence fence_close after inner rest.

(** [inner] is what stands between the first opening brace of [response]
    and its last closing brace. *)
Definition braced_span (response inner : string) : Prop :=
  exists before after rest,
    first_occurrence "{" response before after
    /\ last_occurrence "}" after inner rest.

(** Two JSON objects in one answer, and two fenced blocks of which the first
    does not hold JSON. *)
Definition object_a : string := "{" ++ dq ++ "a" ++ dq ++ ":1}".
Definition object_b : string := "{" ++ dq ++ "b" ++ dq ++ ":2}".
Definition two_objects : string := object_a ++ " and " ++ object_b.
Definition two_blocks : string :=
  fence_open ++ "to be filled in" ++ fence_close ++ nl
  ++ fence_open ++ object_a ++ fence_close.

(** The warnings of the two degraded answers. *)
Definition warning_plan_api : string := "API调用失败，使用备用方案生成复习计划".
Definition warning_paper_api : string := "API调用失败，使用备用方案生成模拟卷".
Definition warning_last_resort : string := "生成失败，使用备用方案".

(** The answers of the outer [catch] of the two handlers. *)
Definition last_resort_plan_response (plan : StudyPlan) : response :=
  mkResponse 200 (StudyPlanBody true (FallbackPlan plan) (Some warning_last_resort)).

Definition last_resort_paper_response (paper : TestPaper) : response :=
  mkResponse 200 (TestPaperBody true (FallbackPaper paper) (Some warning_last_resort)).








Definition warning_analysis : string := "文件分析失败，使用备用方案生成模拟卷".

(** The text put in place of an analysis when the model could not be asked. *)
Definition analysis_failed (e : exn) : string := "文件分析失败: " ++ message_or_default e.

(** Two uploads, of which the second is no longer on disk, in a world
    without a credential and in a world whose model answers. *)
Definition two_uploads : list UploadedFile :=
  [mkUploadedFile "第一章.txt" "text/plain" "uploads/1.txt";
   mkUploadedFile "chapter2.md" "text/markdown" "uploads/2.md"].
Definition no_key_world : world :=
  mkWorld None (fun _ => Content "") [] [("uploads/1.txt", "进程与线程")].
Definition answering_world : world :=
  mkWorld (Some "sk-test") (fun _ => Content "主题：操作系统") []
          [("uploads/1.txt", "进程与线程")].

(** ** Vocabulary of the further properties *)

(** The world once the requests [reqs] have been sent after those of [w]:
    nothing else differs. *)
Definition sent (w : world) (reqs : list request) : world :=
  mkWorld (DEEPSEEK_KEY w) (upstream w) (requests w ++ reqs) (disk w).

(** The requests of the three operations. *)
Definition analysis_request : request := mkRequest system_analysis 0.7%float.
Definition plan_request_sent : request := mkRequest system_plan 0.7%float.
Definition paper_request_sent : request := mkRequest system_paper 0.5%float.

(** The summary pushed for a file and the answer it got. *)
Definition summary_of (entry : FileContent * string) : FileAnalysis :=
  mkFileAnalysis (fc_name (fst entry)) (snd entry).

(** The model answers the requests numbered from [first] on with [texts],
    in this order. *)
Definition answers_from (w : world) (first : nat) (texts : list string) : Prop :=
  forall i text, nth_error texts i = Some text -> upstream w (first + i)%nat = Content text.

(** Three files read from uploads, and a world whose model fails the
    second request with a rate limit. *)
Definition chapter1 : FileContent := mkFileContent "第一章.txt" "text/plain" "进程与线程".
Definition chapter2 : FileContent := mkFileContent "chapter2.md" "text/markdown" "# Memory".
Definition chapter3 : FileContent := mkFileContent "几何.txt" "text/plain" "三角形".
Definition rate_limited : exn := Error "Request failed with status code 429".
Definition flaky_world : world :=
  mkWorld (Some "sk-test")
          (fun k => if Nat.eqb k 1 then Failure rate_limited else Content "主题：操作系统")
          [] [].


(** The world once the uploaded files have been read and unlinked. *)
Definition unlinked (w : world) (files : list UploadedFile) : world :=
  mkWorld (DEEPSEEK_KEY w) (upstream w) (requests w)
          (fold_left (fun d f => disk_remove (path f) d) files (disk w)).

(** A file whose name is a string without any of the needles, a file whose
    name is a string with one of them, and a file whose name is no string. *)
Definition plain_file (file : value) : Prop :=
  exists s, get_prop file "name" = Returns (VStr s) /\ math_nameb s = false.

Definition math_file (file : value) : Prop :=
  exists s, get_prop file "name" = Returns (VStr s) /\ math_nameb s = true.

Definition unnamed_file (file : value) : Prop :=
  forall s, get_prop file "name" <> Returns (VStr s).

(** The five slots of a day. *)
Definition slot_times : list string :=
  ["9:00-10:30"; "10:45-12:00"; "14:00-15:30"; "15:45-17:00"; "19:00-20:30"].
Definition slot_activities : list string :=
  ["知识点学习"; "例题分析"; "习题练习"; "错题整理"; "知识点回顾"].

(** An answer that is a JSON array of one object. *)
Definition array_answer : string := "[" ++ object_a ++ "]".


(** ** Proof tactics *)

(** Case analysis on the subject of a [match] of the goal or a hypothesis. *)
Ltac break_match :=
  match goal with
  | |- context [match ?x with _ => _ end] => destruct x eqn:?
  | H : context [match ?x with _ => _ end] |- _ => destruct x eqn:?
  end.

(** Unfolds a handler down to the runs of the calls it makes. *)
Ltac run_handler :=
  unfold generateStudyPlan, generateTestPaper, try_catch, bind, lift, throw,
    res_json, res_status_json, ret.


(** ** Strings: searching *)

Lemma strip_prefix_spec (p s r : string) :
  strip_prefix p s = Some r <-> s = p ++ r.
Proof.
  revert s; induction p as [|a p IH]; intros s; simpl.
  - split; intros H; [injection H as ->; reflexivity | now subst].
  - destruct s as [|b s].
    + split; discriminate.
    + destruct (Ascii.eqb_spec a b) as [->|Hne].
      * rewrite IH. split; intros H; [now subst | now injection H].
      * split; [discriminate | intros H; injection H as H1 _; congruence].
Qed.

Lemma startsWith_spec (s p : string) :
  startsWith s p = true <-> exists r, s = p ++ r.
Proof.
  unfold startsWith. destruct (strip_prefix p s) as [r|] eqn:E.
  - apply strip_prefix_spec in E. split; eauto.
  - split; [discriminate|]. intros [r Hr].
    apply strip_prefix_spec in Hr. congruence.
Qed.

Lemma includes_spec (s needle : string) :
  includes s needle = true <-> exists before after, s = before ++ needle ++ after.
Proof.
  split.
  - induction s as [|c s IH]; simpl; destruct (startsWith _ needle) eqn:E;
      try discriminate.
    + intros _. apply startsWith_spec in E as [r Hr]. now exists EmptyString, r.
    + intros _. apply startsWith_spec in E as [r Hr]. now exists EmptyString, r.
    + intros H. destruct (IH H) as (b & a & ->). now exists (String c b), a.
  - intros (b & a & ->). induction b as [|c b IH]; simpl.
    + assert (H : startsWith (needle ++ a) needle = true)
        by (apply startsWith_spec; eauto).
      destruct a, needle; simpl in *; rewrite ?H; reflexivity.
    + destruct (startsWith _ needle); [reflexivity | exact IH].
Qed.

Lemma toLowerCase_app (a b : string) :
  toLowerCase (a ++ b) = toLowerCase a ++ toLowerCase b.
Proof. induction a as [|c a IH]; simpl; [reflexivity | now rewrite IH]. Qed.

Lemma toLowerCase_split (s a b : string) :
  toLowerCase s = a ++ b ->
  exists s1 s2, s = s1 ++ s2 /\ toLowerCase s1 = a /\ toLowerCase s2 = b.
Proof.
  revert s; induction a as [|c a IH]; intros s H; simpl in H.
  - now exists EmptyString, s.
  - destruct s as [|d s]; simpl in H; [discriminate|].
    injection H as Hc Hs. destruct (IH _ Hs) as (s1 & s2 & -> & H1 & H2).
    exists (String d s1), s2. simpl. now rewrite Hc, H1.
Qed.

Lemma includes_lower_spec (name needle : string) :
  includes (toLowerCase name) needle = true <-> contains_ci name needle.
Proof.
  rewrite includes_spec. unfold contains_ci. split.
  - intros (b & a & H).
    apply toLowerCase_split in H as (s1 & s2 & -> & H1 & H2).
    apply toLowerCase_split in H2 as (s3 & s4 & -> & H3 & H4).
    now exists s1, s3, s4.
  - intros (b & p & a & -> & Hp).
    exists (toLowerCase b), (toLowerCase a).
    now rewrite !toLowerCase_app, Hp.
Qed.

Lemma math_nameb_spec (name : string) :
  math_nameb name = true <-> math_name name.
Proof.
  unfold math_nameb, math_name. rewrite existsb_exists.
  split; intros (n & Hin & H); exists n; split; trivial;
    now apply includes_lower_spec.
Qed.

(** ** Fallback generators *)

Lemma isMathFile_named (file : value) (s : string) :
  get_prop file "name" = Returns (VStr s) ->
  isMathFile file = Returns (math_nameb s).
Proof.
  intros H. unfold isMathFile, or_else, name_includes, math_nameb, needles.
  rewrite H. simpl.
  repeat match goal with
         | |- context [includes ?a ?b] => destruct (includes a b)
         end; reflexivity.
Qed.

Lemma get_name_file_value (f : FileAnalysis) :
  get_prop (file_value f) "name" = Returns (VStr (fa_name f)).
Proof. reflexivity. Qed.

Lemma file_value_named (f : FileAnalysis) : has_string_name (file_value f).
Proof. exists (fa_name f). apply get_name_file_value. Qed.


Lemma isMathContent_files (files : list FileAnalysis) :
  isMathContent (files_value files)
  = Returns (existsb (fun f => math_nameb (fa_name f)) files).
Proof.
  unfold isMathContent, files_value, some.
  induction files as [|f files IH]; simpl; [reflexivity|].
  rewrite (isMathFile_named _ _ (get_name_file_value f)). simpl.
  destruct (math_nameb (fa_name f)); [reflexivity | exact IH].
Qed.

Lemma math_files_spec (files : list FileAnalysis) :
  existsb (fun f => math_nameb (fa_name f)) files = true
  <-> Exists (fun f => math_name (fa_name f)) files.
Proof.
  rewrite existsb_exists, Exists_exists.
  split; intros (f & Hin & H); exists f; split; trivial; now apply math_nameb_spec.
Qed.

Lemma for_days_spec (subject : string) (reviewDays : Z) (fuel : nat) :
  forall (i : Z) (dailyPlans : list DailyPlan),
    (Z.to_nat (reviewDays - i + 1) <= fuel)%nat ->
    for_days fuel subject reviewDays i dailyPlans
    = Returns (dailyPlans
               ++ map (dailyPlan subject reviewDays)
                      (days_from i (Z.to_nat (reviewDays - i + 1))))%list.
Proof.
  induction fuel as [|fuel IH]; intros i acc Hfuel; simpl;
    destruct (Z.leb_spec i reviewDays) as [Hle|Hgt].
  - lia.
  - replace (Z.to_nat (reviewDays - i + 1)) with O by lia.
    simpl. now rewrite app_nil_r.
  - rewrite IH by lia.
    replace (Z.to_nat (reviewDays - i + 1))
      with (S (Z.to_nat (reviewDays - (i + 1) + 1))) by lia.
    simpl. now rewrite <- app_assoc.
  - replace (Z.to_nat (reviewDays - i + 1)) with O by lia.
    simpl. now rewrite app_nil_r.
Qed.

(** The loop of the study plan ends with the fuel it is given. *)
Lemma for_days_fuel (subject : string) (reviewDays : Z) :
  for_days (Z.to_nat reviewDays) subject reviewDays 1 []
  = Returns (daily_plans (planFor subject reviewDays)).
Proof.
  rewrite for_days_spec by lia. simpl.
  now replace (reviewDays - 1 + 1) with reviewDays by lia.
Qed.

Lemma generateFallbackStudyPlan_spec (files targetScore : value) (reviewDays : Z) (b : bool) :
  isMathContent files = Returns b ->
  generateFallbackStudyPlan files targetScore reviewDays
  = Returns (planFor (if b then "数学" else "计算机基础") reviewDays).
Proof.
  intros H. unfold generateFallbackStudyPlan. rewrite H. simpl.
  now rewrite for_days_fuel.
Qed.

Lemma generateFallbackTestPaper_spec (files targetScore questionCount questionType : value)
    (b : bool) :
  isMathContent files = Returns b ->
  generateFallbackTestPaper files targetScore questionCount questionType
  = Returns (if b then mathPaper else generalPaper).
Proof.
  intros H. unfold generateFallbackTestPaper. rewrite H. now destruct b.
Qed.





(** C10: for an integer [n <= 0] and any list of files,
    [generateFallbackStudyPlan] returns a plan with no daily plan whose
    [total_days] is still [n]; for a negative [n], [total_days] is therefore
    not the number of daily plans. *)
Theorem fallback_study_plan_nonpositive
    (files : list FileAnalysis) (targetScore : value) (n : Z) (Hn : n <= 0) :
  exists plan,
    generateFallbackStudyPlan (files_value files) targetScore n = Returns plan
    /\ daily_plans plan = []
    /\ total_days plan = n
    /\ (n < 0 -> total_days plan <> Z.of_nat (List.length (daily_plans plan))).
Proof.
  eexists. split.
  { apply generateFallbackStudyPlan_spec, isMathContent_files. }
  simpl. replace (Z.to_nat n) with O by lia. simpl.
  repeat split. lia.
Qed.

Lemma fallback_study_plan_nonpositive_witness :
  -2 <= 0
  /\ exists plan,
       generateFallbackStudyPlan (files_value [mkFileAnalysis "notes.txt" ""]) VUndefined (-2)
       = Returns plan
       /\ daily_plans plan = []
       /\ total_days plan = -2
       /\ total_days plan <> Z.of_nat (List.length (daily_plans plan)).
Proof.
  assert (H : -2 <= 0) by lia. split; [exact H|].
  destruct (fallback_study_plan_nonpositive [mkFileAnalysis "notes.txt" ""] VUndefined (-2) H)
    as (plan & Hplan & Hnil & Htotal & Hneq).
  exists plan. repeat split; trivial. apply Hneq. lia.
Defined.

Lemma papers_differ : mathPaper <> generalPaper.
Proof. intros H. apply (f_equal title) in H. discriminate H. Qed.

Lemma plans_differ (reviewDays : Z) :
  planFor "数学" reviewDays <> planFor "计算机基础" reviewDays.
Proof. intros H. apply (f_equal plan_title) in H. discriminate H. Qed.

(** C3: whatever the files, the target score, the question count and the
    question type, [generateFallbackTestPaper] returns one of the two fixed
    papers, chosen by the domain of the file names alone; the paper has
    exactly 3 questions and the fractions of its difficulty distribution add
    up to 1.0. *)
Theorem fallback_test_paper_three_questions
    (files : list FileAnalysis) (targetScore questionCount questionType : value) :
  exists paper,
    generateFallbackTestPaper (files_value files) targetScore questionCount questionType
    = Returns paper
    /\ paper = (if existsb (fun f => math_nameb (fa_name f)) files
                then mathPaper else generalPaper)
    /\ (paper = mathPaper \/ paper = generalPaper)
    /\ List.length (questions paper) = 3%nat
    /\ total_questions (analysis paper) = 3
    /\ sum_fractions (difficulty_distribution (analysis paper)) = 1%float
    /\ (forall targetScore' questionCount' questionType',
          generateFallbackTestPaper (files_value files) targetScore' questionCount'
                                    questionType'
          = Returns paper).
Proof.
  eexists. split.
  { apply generateFallbackTestPaper_spec, isMathContent_files. }
  split; [reflexivity|].
  destruct (existsb _ files) eqn:E; repeat split; auto;
    intros; erewrite generateFallbackTestPaper_spec by apply isMathContent_files;
    now rewrite E.
Qed.

(** C4: for any list of files, both fallback generators give their
    mathematics output if and only if the name of some file contains, up to
    case, one of "math", "数学", "代数", "几何"; otherwise they give their
    general output. *)
Theorem fallback_domain_classification
    (files : list FileAnalysis) (targetScore questionCount questionType : value)
    (reviewDays : Z) :
  (generateFallbackTestPaper (files_value files) targetScore questionCount questionType
   = Returns mathPaper <-> math_files files)
  /\ (generateFallbackTestPaper (files_value files) targetScore questionCount questionType
      = Returns generalPaper <-> ~ math_files files)
  /\ (generateFallbackStudyPlan (files_value files) targetScore reviewDays
      = Returns (planFor "数学" reviewDays) <-> math_files files)
  /\ (generateFallbackStudyPlan (files_value files) targetScore reviewDays
      = Returns (planFor "计算机基础" reviewDays) <-> ~ math_files files).
Proof.
  unfold math_files. rewrite <- math_files_spec.
  rewrite (generateFallbackTestPaper_spec _ _ _ _ _ (isMathContent_files files)).
  rewrite (generateFallbackStudyPlan_spec _ _ _ _ (isMathContent_files files)).
  pose proof papers_differ as Hp. pose proof (plans_differ reviewDays) as Hs.
  destruct (existsb _ files); repeat split; intros H;
    try reflexivity; try discriminate; try congruence;
    try (injection H as H; congruence).
Qed.




(** C9, as the code has it: in a paper of the fallback generator every
    question that is not an essay has a non-empty list of options, and the
    essay question has no [options] property at all. *)
Theorem fallback_question_options
    (files targetScore questionCount questionType : value) (paper : TestPaper) :
  generateFallbackTestPaper files targetScore questionCount questionType = Returns paper ->
  forall q, In q (questions paper) ->
    (q_type q = essay -> q_options q = None)
    /\ (q_type q <> essay -> exists opts, q_options q = Some opts /\ opts <> []).
Proof.
  unfold generateFallbackTestPaper.
  destruct (isMathContent files) as [[|]| |]; simpl; try discriminate;
    intros [= <-] q Hq; simpl in Hq;
    repeat (destruct Hq as [<-|Hq]); try contradiction; simpl;
    split; intros H; try discriminate H; try reflexivity;
    try (now contradiction H);
    eexists; (split; [reflexivity | discriminate]).
Qed.

Lemma fallback_question_options_witness :
  generateFallbackTestPaper (VArr []) (VNum 85 0) (VNum 3 0) (VStr "all")
  = Returns generalPaper
  /\ exists q,
       nth_error (questions generalPaper) 1 = Some q
       /\ In q (questions generalPaper)
       /\ q_options q = Some ["A. Windows"; "B. Linux"; "C. Office"; "D. macOS"]
       /\ exists opts, q_options q = Some opts /\ opts <> [].
Proof.
  assert (H : generateFallbackTestPaper (VArr []) (VNum 85 0) (VNum 3 0) (VStr "all")
              = Returns generalPaper) by reflexivity.
  split; [exact H|].
  eexists. split; [reflexivity|].
  assert (Hin : In (nth 1 (questions generalPaper) (mkQuestion 0 essay "" None "" "" "" []))
                   (questions generalPaper))
    by (simpl; auto).
  split; [exact Hin|]. split; [reflexivity|].
  apply (fallback_question_options _ _ _ _ _ H _ Hin). discriminate.
Defined.

(** C9 as stated fails: the essay question of the general paper has no
    [options] property, so its options are not an empty list. *)
Lemma essay_question_without_options :
  exists q,
    generateFallbackTestPaper (VArr []) (VNum 85 0) (VNum 3 0) (VStr "all")
    = Returns generalPaper
    /\ nth_error (questions generalPaper) 2 = Some q
    /\ q_type q = essay
    /\ q_options q = None
    /\ q_options q <> Some [].
Proof. eexists. repeat split; try reflexivity. discriminate. Qed.

(** ** [JSON.parse] ends *)

Lemma length_app (a b : string) :
  String.length (a ++ b) = (String.length a + String.length b)%nat.
Proof. induction a as [|c a IH]; simpl; [reflexivity | now rewrite IH]. Qed.

Lemma strip_prefix_length (p s r : string) :
  strip_prefix p s = Some r ->
  String.length s = (String.length p + String.length r)%nat.
Proof. intros H. apply strip_prefix_spec in H as ->. apply length_app. Qed.

Lemma skip_ws_length (s : string) :
  (String.length (skip_ws s) <= String.length s)%nat.
Proof.
  induction s as [|c s IH]; simpl; [lia|].
  destruct (is_ws c); simpl; lia.
Qed.

Lemma take_digits_length (s ds rest : string) :
  take_digits s = (ds, rest) ->
  String.length s = (String.length ds + String.length rest)%nat.
Proof.
  revert ds rest; induction s as [|c s IH]; intros ds rest; simpl.
  - intros [= <- <-]. reflexivity.
  - destruct (is_digit c).
    + destruct (take_digits s) as [ds' tail] eqn:E. intros [= <- <-].
      simpl. now rewrite (IH _ _ eq_refl).
    + intros [= <- <-]. reflexivity.
Qed.

Lemma cons_parsed_ok (pre : string) (p : parsed string) (str rest : string) :
  cons_parsed pre p = POk str rest -> exists str', p = POk str' rest.
Proof. destruct p; simpl; intros [=]; subst; eauto. Qed.

Lemma cons_parsed_fuel (pre : string) (p : parsed string) :
  cons_parsed pre p = PFuel -> p = PFuel.
Proof. now destruct p. Qed.

Lemma map_parsed_ok {A B : Type} (f : A -> B) (p : parsed A) (b : B) (rest : string) :
  map_parsed f p = POk b rest -> exists a, p = POk a rest.
Proof. destruct p; simpl; intros [=]; subst; eauto. Qed.

Lemma map_parsed_fuel {A B : Type} (f : A -> B) (p : parsed A) :
  map_parsed f p = PFuel -> p = PFuel.
Proof. now destruct p. Qed.

(** A string literal is read without fuel and leaves a shorter text. *)
Lemma parse_string_body_spec (n : nat) :
  forall s, (String.length s <= n)%nat ->
    parse_string_body s <> PFuel
    /\ forall str rest, parse_string_body s = POk str rest ->
         (String.length rest < String.length s)%nat.
Proof.
  induction n as [|n IH]; intros s Hlen.
  - destruct s; simpl in *; [|lia]. split; [discriminate | intros ? ? [=]].
  - destruct s as [|c rest]; simpl.
    { split; [discriminate | intros ? ? [=]]. }
    simpl in Hlen.
    destruct (Ascii.eqb c quote).
    { split; [discriminate|]. intros str r [= <- <-]. lia. }
    destruct (Ascii.eqb c backslash).
    + destruct rest as [|e rest1]; [split; [discriminate | intros ? ? [=]]|].
      simpl in Hlen.
      destruct (Ascii.eqb e "u"%char).
      * destruct rest1 as [|h1 [|h2 [|h3 [|h4 rest5]]]];
          try (split; [discriminate | intros ? ? [=]]).
        simpl in Hlen.
        destruct (hex_value h1), (hex_value h2), (hex_value h3), (hex_value h4);
          try (split; [discriminate | intros ? ? [=]]).
        destruct (IH rest5 ltac:(lia)) as [Hf Hl]. split.
        -- intros H%cons_parsed_fuel. contradiction.
        -- intros str r [str' H]%cons_parsed_ok. apply Hl in H. simpl. lia.
      * destruct (escape_char e); [|split; [discriminate | intros ? ? [=]]].
        destruct (IH rest1 ltac:(lia)) as [Hf Hl]. split.
        -- intros H%cons_parsed_fuel. contradiction.
        -- intros str r [str' H]%cons_parsed_ok. apply Hl in H. simpl. lia.
    + destruct (nat_of_ascii c <? 32)%nat; [split; [discriminate | intros ? ? [=]]|].
      destruct (IH rest ltac:(lia)) as [Hf Hl]. split.
      * intros H%cons_parsed_fuel. contradiction.
      * intros str r [str' H]%cons_parsed_ok. apply Hl in H. lia.
Qed.

Lemma parse_string_body_fuel (s : string) : parse_string_body s <> PFuel.
Proof. now apply (parse_string_body_spec (String.length s)). Qed.

Lemma parse_string_body_length (s str rest : string) :
  parse_string_body s = POk str rest ->
  (String.length rest < String.length s)%nat.
Proof. now apply (parse_string_body_spec (String.length s)). Qed.

Lemma parse_fraction_length (s frac rest : string) :
  parse_fraction s = Some (frac, rest) ->
  (String.length rest <= String.length s)%nat.
Proof.
  unfold parse_fraction. destruct (strip_prefix "." s) as [r|] eqn:E.
  - apply strip_prefix_length in E.
    destruct (take_digits r) as [fs r'] eqn:D. apply take_digits_length in D.
    destruct (String.eqb fs ""); intros [=]; subst. lia.
  - intros [=]; subst. lia.
Qed.

Lemma parse_sign_length (s rest : string) (sign : Z) :
  parse_sign s = (sign, rest) -> (String.length rest <= String.length s)%nat.
Proof.
  unfold parse_sign.
  destruct (strip_prefix "-" s) eqn:E1; [|destruct (strip_prefix "+" s) eqn:E2];
    intros [=]; subst; try lia.
  - apply strip_prefix_length in E1. lia.
  - apply strip_prefix_length in E2. lia.
Qed.

Lemma parse_exponent_length (s rest : string) (e : Z) :
  parse_exponent s = Some (e, rest) ->
  (String.length rest <= String.length s)%nat.
Proof.
  unfold parse_exponent.
  destruct (match strip_prefix "e" s with Some r => Some r | None => strip_prefix "E" s end)
    as [r|] eqn:E.
  - assert (Hr : (String.length r <= String.length s)%nat).
    { destruct (strip_prefix "e" s) eqn:E1.
      - injection E as ->. apply strip_prefix_length in E1. lia.
      - apply strip_prefix_length in E. lia. }
    destruct (parse_sign r) as [sign r1] eqn:Sg. apply parse_sign_length in Sg.
    destruct (take_digits r1) as [es r2] eqn:D. apply take_digits_length in D.
    destruct (String.eqb es ""); intros [=]; subst. lia.
  - intros [=]; subst. lia.
Qed.

Lemma parse_number_fuel (s : string) : parse_number s <> PFuel.
Proof.
  unfold parse_number. repeat break_match; discriminate.
Qed.

Lemma parse_number_length (s rest : string) (v : value) :
  parse_number s = POk v rest -> (String.length rest < String.length s)%nat.
Proof.
  unfold parse_number.
  destruct (match strip_prefix "-" s with Some r => (true, r) | None => (false, s) end)
    as [negative s1] eqn:E1.
  assert (H1 : (String.length s1 <= String.length s)%nat).
  { destruct (strip_prefix "-" s) eqn:P; injection E1 as <- <-; [|lia].
    apply strip_prefix_length in P. lia. }
  destruct (match strip_prefix "0" s1 with Some r => ("0", r) | None => take_digits s1 end)
    as [int_part s2] eqn:E2.
  destruct (String.eqb_spec int_part ""); [discriminate|].
  assert (H2 : (String.length s2 < String.length s1)%nat).
  { destruct (strip_prefix "0" s1) eqn:P.
    - injection E2 as <- <-. apply strip_prefix_length in P. simpl in P. lia.
    - apply take_digits_length in E2. destruct int_part; [congruence|]. simpl in E2. lia. }
  destruct (parse_fraction s2) as [[frac_part s3]|] eqn:F; [|discriminate].
  apply parse_fraction_length in F.
  destruct (parse_exponent s3) as [[e s4]|] eqn:X; [|discriminate].
  apply parse_exponent_length in X.
  intros [= _ <-]. lia.
Qed.

Lemma parse_literal_fuel (word : string) (v : value) (s : string) :
  parse_literal word v s <> PFuel.
Proof. unfold parse_literal. now destruct (strip_prefix word s). Qed.

Lemma parse_literal_length (word : string) (v v' : value) (s rest : string) :
  word <> "" ->
  parse_literal word v s = POk v' rest -> (String.length rest < String.length s)%nat.
Proof.
  unfold parse_literal. intros Hword.
  destruct (strip_prefix word s) eqn:E; intros [=]; subst.
  apply strip_prefix_length in E. destruct word; [congruence|]. simpl in E. lia.
Qed.

Lemma skip_ws_cons (s rest : string) (c : ascii) :
  skip_ws s = String c rest -> (String.length rest < String.length s)%nat.
Proof.
  intros H. pose proof (skip_ws_length s) as Hs. rewrite H in Hs. simpl in Hs. lia.
Qed.

Lemma strip_after_ws (p s rest : string) :
  p <> "" ->
  strip_prefix p (skip_ws s) = Some rest ->
  (String.length rest < String.length s)%nat.
Proof.
  intros Hp H. apply strip_prefix_length in H.
  pose proof (skip_ws_length s). destruct p; [congruence|]. simpl in H. lia.
Qed.

(** Whatever the fuel, what a parsing function leaves is shorter than what
    it was given. *)
Lemma parse_length (fuel : nat) :
  (forall s v rest, parse_value fuel s = POk v rest ->
     (String.length rest < String.length s)%nat)
  /\ (forall s vs rest, parse_elements fuel s = POk vs rest ->
        (String.length rest < String.length s)%nat)
  /\ (forall s ps rest, parse_members fuel s = POk ps rest ->
        (String.length rest < String.length s)%nat).
Proof.
  induction fuel as [|fuel (IHv & IHe & IHm)].
  { repeat split; intros; discriminate. }
  repeat split.
  - intros s v rest. cbn [parse_value parse_elements parse_members].
    destruct (skip_ws s) as [|c r] eqn:Ews; [discriminate|].
    pose proof (skip_ws_cons _ _ _ Ews) as Hr.
    assert (Hs : (String.length (String c r) <= String.length s)%nat)
      by (rewrite <- Ews; apply skip_ws_length).
    destruct (Ascii.eqb c "{"%char).
    { destruct (strip_prefix "}" (skip_ws r)) eqn:E.
      - intros [= _ <-]. apply strip_after_ws in E; [lia | discriminate].
      - intros [ps H]%map_parsed_ok. apply IHm in H. lia. }
    destruct (Ascii.eqb c "["%char).
    { destruct (strip_prefix "]" (skip_ws r)) eqn:E.
      - intros [= _ <-]. apply strip_after_ws in E; [lia | discriminate].
      - intros [vs H]%map_parsed_ok. apply IHe in H. lia. }
    destruct (Ascii.eqb c quote).
    { intros [str H]%map_parsed_ok. apply parse_string_body_length in H. lia. }
    destruct (Ascii.eqb c "t"%char).
    { intros H. apply parse_literal_length in H; [lia | discriminate]. }
    destruct (Ascii.eqb c "f"%char).
    { intros H. apply parse_literal_length in H; [lia | discriminate]. }
    destruct (Ascii.eqb c "n"%char).
    { intros H. apply parse_literal_length in H; [lia | discriminate]. }
    intros H. apply parse_number_length in H. lia.
  - intros s vs rest. cbn [parse_value parse_elements parse_members].
    destruct (parse_value fuel s) as [v r| |] eqn:Ev; try discriminate.
    apply IHv in Ev.
    destruct (strip_prefix "," (skip_ws r)) eqn:E1.
    + intros [vs' H]%map_parsed_ok. apply IHe in H.
      apply strip_after_ws in E1; [lia | discriminate].
    + destruct (strip_prefix "]" (skip_ws r)) eqn:E2; [|discriminate].
      intros [= _ <-]. apply strip_after_ws in E2; [lia | discriminate].
  - intros s ps rest. cbn [parse_value parse_elements parse_members].
    destruct (strip_prefix dq (skip_ws s)) as [r|] eqn:E0; [|discriminate].
    apply strip_after_ws in E0; [|discriminate].
    destruct (parse_string_body r) as [key r1| |] eqn:Ek; try discriminate.
    apply parse_string_body_length in Ek.
    destruct (strip_prefix ":" (skip_ws r1)) as [r2|] eqn:E1; [|discriminate].
    apply strip_after_ws in E1; [|discriminate].
    destruct (parse_value fuel r2) as [v r3| |] eqn:Ev; try discriminate.
    apply IHv in Ev.
    destruct (strip_prefix "," (skip_ws r3)) eqn:E2.
    + intros [ps' H]%map_parsed_ok. apply IHm in H.
      apply strip_after_ws in E2; [lia | discriminate].
    + destruct (strip_prefix "}" (skip_ws r3)) eqn:E3; [|discriminate].
      intros [= _ <-]. apply strip_after_ws in E3; [lia | discriminate].
Qed.

(** Twice the length of the text, and a little, is fuel enough. *)
Lemma parse_enough_fuel (fuel : nat) :
  (forall s, (2 * String.length s + 1 <= fuel)%nat -> parse_value fuel s <> PFuel)
  /\ (forall s, (2 * String.length s + 2 <= fuel)%nat -> parse_elements fuel s <> PFuel)
  /\ (forall s, (2 * String.length s + 2 <= fuel)%nat -> parse_members fuel s <> PFuel).
Proof.
  induction fuel as [|fuel (IHv & IHe & IHm)].
  { repeat split; intros; lia. }
  destruct (parse_length fuel) as (Lv & Le & Lm).
  repeat split.
  - intros s Hfuel. cbn [parse_value parse_elements parse_members].
    destruct (skip_ws s) as [|c r] eqn:Ews; [discriminate|].
    pose proof (skip_ws_cons _ _ _ Ews) as Hr.
    destruct (Ascii.eqb c "{"%char).
    { destruct (strip_prefix "}" (skip_ws r)); [discriminate|].
      intros H%map_parsed_fuel. revert H. apply IHm. lia. }
    destruct (Ascii.eqb c "["%char).
    { destruct (strip_prefix "]" (skip_ws r)); [discriminate|].
      intros H%map_parsed_fuel. revert H. apply IHe. lia. }
    destruct (Ascii.eqb c quote).
    { intros H%map_parsed_fuel. revert H. apply parse_string_body_fuel. }
    destruct (Ascii.eqb c "t"%char); [apply parse_literal_fuel|].
    destruct (Ascii.eqb c "f"%char); [apply parse_literal_fuel|].
    destruct (Ascii.eqb c "n"%char); [apply parse_literal_fuel|].
    apply parse_number_fuel.
  - intros s Hfuel. cbn [parse_value parse_elements parse_members].
    destruct (parse_value fuel s) as [v r| |] eqn:Ev; try discriminate.
    + apply Lv in Ev.
      destruct (strip_prefix "," (skip_ws r)) as [r'|] eqn:E1.
      * apply strip_after_ws in E1; [|discriminate].
        intros H%map_parsed_fuel. revert H. apply IHe. lia.
      * destruct (strip_prefix "]" (skip_ws r)); discriminate.
    + exfalso. revert Ev. apply IHv. lia.
  - intros s Hfuel. cbn [parse_value parse_elements parse_members].
    destruct (strip_prefix dq (skip_ws s)) as [r|] eqn:E0; [|discriminate].
    apply strip_after_ws in E0; [|discriminate].
    destruct (parse_string_body r) as [key r1| |] eqn:Ek; try discriminate.
    + apply parse_string_body_length in Ek.
      destruct (strip_prefix ":" (skip_ws r1)) as [r2|] eqn:E1; [|discriminate].
      apply strip_after_ws in E1; [|discriminate].
      destruct (parse_value fuel r2) as [v r3| |] eqn:Ev; try discriminate.
      * apply Lv in Ev.
        destruct (strip_prefix "," (skip_ws r3)) as [r4|] eqn:E2.
        -- apply strip_after_ws in E2; [|discriminate].
           intros H%map_parsed_fuel. revert H. apply IHm. lia.
        -- destruct (strip_prefix "}" (skip_ws r3)); discriminate.
      * exfalso. revert Ev. apply IHv. lia.
    + exfalso. revert Ek. apply parse_string_body_fuel.
Qed.

(** [JSON.parse] returns a value or throws a [SyntaxError]. *)
Lemma JSON_parse_total (text : string) :
  (exists v, JSON_parse text = Returns v)
  \/ (exists msg, JSON_parse text = Throws (SyntaxError msg)).
Proof.
  unfold JSON_parse.
  destruct (parse_value (parse_fuel text) text) as [v rest| |] eqn:E.
  - destruct (skip_ws rest); eauto.
  - eauto.
  - exfalso. revert E. apply parse_enough_fuel. unfold parse_fuel. lia.
Qed.

(** ** Response interpretation *)

Lemma app_inj_length (a b x y : string) :
  a ++ x = b ++ y -> String.length a = String.length b -> a = b /\ x = y.
Proof.
  revert b; induction a as [|c a IH]; intros [|d b]; simpl; try discriminate.
  - now intros.
  - intros [= -> H] [= Hl]. destruct (IH _ H Hl) as [-> ->]. now split.
Qed.

Lemma strip_prefix_app (p r : string) : strip_prefix p (p ++ r) = Some r.
Proof. now apply strip_prefix_spec. Qed.

Lemma find_first_sound (needle s before after : string) :
  find_first needle s = Some (before, after) -> first_occurrence needle s before after.
Proof.
  revert before after; induction s as [|c s IH]; intros before after; simpl.
  - destruct (strip_prefix needle "") eqn:E; [|discriminate].
    intros [= <- <-]. apply strip_prefix_spec in E. split; [exact E | simpl; lia].
  - destruct (strip_prefix needle (String c s)) as [r|] eqn:E.
    + intros [= <- <-]. apply strip_prefix_spec in E. split; [exact E | simpl; lia].
    + destruct (find_first needle s) as [[b a]|] eqn:F; [|discriminate].
      intros [= <- <-]. destruct (IH _ _ eq_refl) as [Hs Hmin]. split.
      * simpl. now rewrite <- Hs.
      * intros [|d b'] a' H.
        -- simpl in H. rewrite H, strip_prefix_app in E. discriminate.
        -- simpl in H. injection H as -> H. apply Hmin in H. simpl. lia.
Qed.

Lemma find_first_none (needle s : string) :
  find_first needle s = None -> forall b a, s <> b ++ needle ++ a.
Proof.
  induction s as [|c s IH]; simpl.
  - destruct (strip_prefix needle "") eqn:E; [discriminate|].
    intros _ [|d b] a H; [|discriminate].
    simpl in H. rewrite H, strip_prefix_app in E. discriminate.
  - destruct (strip_prefix needle (String c s)) as [r|] eqn:E; [discriminate|].
    destruct (find_first needle s) as [[b0 a0]|] eqn:F; [discriminate|].
    intros _ [|d b] a H.
    + simpl in H. rewrite H, strip_prefix_app in E. discriminate.
    + simpl in H. injection H as _ H. now apply (IH eq_refl b a).
Qed.

Lemma first_occurrence_unique (needle s b1 a1 b2 a2 : string) :
  first_occurrence needle s b1 a1 -> first_occurrence needle s b2 a2 ->
  b1 = b2 /\ a1 = a2.
Proof.
  intros [H1 M1] [H2 M2].
  pose proof (M1 _ _ H2). pose proof (M2 _ _ H1).
  rewrite H1 in H2.
  destruct (app_inj_length _ _ _ _ H2 ltac:(lia)) as [-> H3].
  split; [reflexivity|].
  now destruct (app_inj_length _ _ _ _ H3 eq_refl).
Qed.

Lemma find_first_complete (needle s before after : string) :
  first_occurrence needle s before after -> find_first needle s = Some (before, after).
Proof.
  intros H. destruct (find_first needle s) as [[b a]|] eqn:F.
  - apply find_first_sound in F.
    now destruct (first_occurrence_unique _ _ _ _ _ _ F H) as [-> ->].
  - destruct H as [H _]. now apply (find_first_none _ _ F) in H.
Qed.

Lemma find_last_none (needle s : string) :
  needle <> "" ->
  find_last needle s = None -> forall b a, s <> b ++ needle ++ a.
Proof.
  intros Hn. induction s as [|c s IH]; simpl.
  - intros _ [|d b] a H; [|discriminate].
    destruct needle; [congruence | discriminate].
  - destruct (find_last needle s) as [[b0 a0]|] eqn:F; [discriminate|].
    destruct (strip_prefix needle (String c s)) as [r|] eqn:E; [discriminate|].
    intros _ [|d b] a H.
    + simpl in H. rewrite H, strip_prefix_app in E. discriminate.
    + simpl in H. injection H as _ H. now apply (IH eq_refl b a).
Qed.

Lemma find_last_sound (needle s before after : string) :
  needle <> "" ->
  find_last needle s = Some (before, after) -> last_occurrence needle s before after.
Proof.
  intros Hn. revert before after; induction s as [|c s IH]; intros before after; simpl.
  - discriminate.
  - destruct (find_last needle s) as [[b a]|] eqn:F.
    + intros [= <- <-]. destruct (IH _ _ eq_refl) as [Hs Hmax]. split.
      * simpl. now rewrite <- Hs.
      * intros [|d b'] a' H; [simpl; lia|].
        simpl in H. injection H as _ H. apply Hmax in H. simpl. lia.
    + destruct (strip_prefix needle (String c s)) as [r|] eqn:E; [|discriminate].
      intros [= <- <-]. apply strip_prefix_spec in E. split; [exact E|].
      intros [|d b'] a' H; [simpl; lia|].
      simpl in H. injection H as _ H. now apply (find_last_none _ _ Hn F) in H.
Qed.

Lemma last_occurrence_unique (needle s b1 a1 b2 a2 : string) :
  last_occurrence needle s b1 a1 -> last_occurrence needle s b2 a2 ->
  b1 = b2 /\ a1 = a2.
Proof.
  intros [H1 M1] [H2 M2].
  pose proof (M1 _ _ H2). pose proof (M2 _ _ H1).
  rewrite H1 in H2.
  destruct (app_inj_length _ _ _ _ H2 ltac:(lia)) as [-> H3].
  split; [reflexivity|].
  now destruct (app_inj_length _ _ _ _ H3 eq_refl).
Qed.

Lemma find_last_complete (needle s before after : string) :
  needle <> "" ->
  last_occurrence needle s before after -> find_last needle s = Some (before, after).
Proof.
  intros Hn H. destruct (find_last needle s) as [[b a]|] eqn:F.
  - apply (find_last_sound _ _ _ _ Hn) in F.
    now destruct (last_occurrence_unique _ _ _ _ _ _ F H) as [-> ->].
  - destruct H as [H _]. now apply (find_last_none _ _ Hn F) in H.
Qed.

(** The two patterns find the fenced block and the braced span. *)
Lemma match_fenced_spec (response : string) (m : regex_match) :
  match_fenced response = Some m
  <-> exists inner,
        fenced_block response inner
        /\ m = mkMatch (fence_open ++ inner ++ fence_close) (Some inner).
Proof.
  unfold match_fenced, fenced_block. split.
  - destruct (find_first fence_open response) as [[before after]|] eqn:F1; [|discriminate].
    destruct (find_first fence_close after) as [[inner rest]|] eqn:F2; [|discriminate].
    intros [= <-]. exists inner. split; [|reflexivity].
    exists before, after, rest. split; now apply find_first_sound.
  - intros (inner & (before & after & rest & H1 & H2) & ->).
    now rewrite (find_first_complete _ _ _ _ H1), (find_first_complete _ _ _ _ H2).
Qed.

Lemma match_fenced_none (response : string) :
  match_fenced response = None <-> forall inner, ~ fenced_block response inner.
Proof.
  split.
  - intros H inner Hb.
    assert (Hm : match_fenced response
                 = Some (mkMatch (fence_open ++ inner ++ fence_close) (Some inner)))
      by (apply match_fenced_spec; eauto).
    congruence.
  - intros H. destruct (match_fenced response) as [m|] eqn:E; [|reflexivity].
    apply match_fenced_spec in E as (inner & Hb & _). now apply H in Hb.
Qed.

Lemma match_braces_spec (response : string) (m : regex_match) :
  match_braces response = Some m
  <-> exists inner,
        braced_span response inner /\ m = mkMatch ("{" ++ inner ++ "}") None.
Proof.
  assert (Hn : "}" <> "") by discriminate.
  unfold match_braces, braced_span. split.
  - destruct (find_first "{" response) as [[before after]|] eqn:F1; [|discriminate].
    destruct (find_last "}" after) as [[inner rest]|] eqn:F2; [|discriminate].
    intros [= <-]. exists inner. split; [|reflexivity].
    exists before, after, rest. split;
      [now apply find_first_sound | now apply find_last_sound].
  - intros (inner & (before & after & rest & H1 & H2) & ->).
    now rewrite (find_first_complete _ _ _ _ H1), (find_last_complete _ _ _ _ Hn H2).
Qed.

Lemma match_braces_none (response : string) :
  match_braces response = None <-> forall inner, ~ braced_span response inner.
Proof.
  split.
  - intros H inner Hb.
    assert (Hm : match_braces response = Some (mkMatch ("{" ++ inner ++ "}") None))
      by (apply match_braces_spec; eauto).
    congruence.
  - intros H. destruct (match_braces response) as [m|] eqn:E; [|reflexivity].
    apply match_braces_spec in E as (inner & Hb & _). now apply H in Hb.
Qed.

Lemma extract_matched (response : string) (m : regex_match) :
  or_match (match_fenced response) (match_braces response) = Some m ->
  extractStructured response
  = Returns (match JSON_parse (group_or_whole m) with
             | Returns v => v
             | _ => raw_envelope response
             end).
Proof.
  intros H. unfold extractStructured. rewrite H.
  destruct (JSON_parse_total (group_or_whole m)) as [[v ->]|[msg ->]]; reflexivity.
Qed.

Lemma extract_unmatched (response : string) :
  or_match (match_fenced response) (match_braces response) = None ->
  extractStructured response = Returns (raw_envelope response).
Proof. intros H. unfold extractStructured. now rewrite H. Qed.

Lemma JSON_parse_throws (text : string) :
  (forall v, JSON_parse text <> Returns v) ->
  exists msg, JSON_parse text = Throws (SyntaxError msg).
Proof.
  intros H. destruct (JSON_parse_total text) as [[v Hv]|Hm]; [|exact Hm].
  now apply H in Hv.
Qed.

Lemma extractStructured_total (response : string) :
  exists v, extractStructured response = Returns v.
Proof.
  destruct (or_match (match_fenced response) (match_braces response)) as [m|] eqn:E.
  - rewrite (extract_matched _ _ E). eauto.
  - rewrite (extract_unmatched _ E). eauto.
Qed.

(** C5, as the code has it: the interpretation of an answer never throws.
    If the answer has a fenced JSON block, the interior of the first one is
    parsed: the value is returned when the interior is valid JSON, the
    envelope of the raw answer otherwise.  If it has no fenced block, what
    stands from its first opening brace to its last closing brace is parsed
    and returned when valid JSON, the envelope otherwise.  With neither, the
    envelope is returned. *)
Theorem extractStructured_best_effort (response : string) :
  (exists v, extractStructured response = Returns v)
  /\ (forall inner v,
        fenced_block response inner -> JSON_parse inner = Returns v ->
        extractStructured response = Returns v)
  /\ (forall inner,
        fenced_block response inner -> (forall v, JSON_parse inner <> Returns v) ->
        extractStructured response = Returns (raw_envelope response))
  /\ (forall inner v,
        (forall i, ~ fenced_block response i) -> braced_span response inner ->
        JSON_parse ("{" ++ inner ++ "}") = Returns v ->
        extractStructured response = Returns v)
  /\ (forall inner,
        (forall i, ~ fenced_block response i) -> braced_span response inner ->
        (forall v, JSON_parse ("{" ++ inner ++ "}") <> Returns v) ->
        extractStructured response = Returns (raw_envelope response))
  /\ ((forall i, ~ fenced_block response i) -> (forall i, ~ braced_span response i) ->
      extractStructured response = Returns (raw_envelope response)).
Proof.
  repeat split.
  - apply extractStructured_total.
  - intros inner v Hb Hv.
    assert (Hm : match_fenced response
                 = Some (mkMatch (fence_open ++ inner ++ fence_close) (Some inner)))
      by (apply match_fenced_spec; eauto).
    rewrite (extract_matched response _ ltac:(rewrite Hm; reflexivity)).
    unfold group_or_whole. cbn [m1 m0].
    destruct (String.eqb_spec inner "") as [->|_]; [discriminate Hv|].
    now rewrite Hv.
  - intros inner Hb Hv.
    assert (Hm : match_fenced response
                 = Some (mkMatch (fence_open ++ inner ++ fence_close) (Some inner)))
      by (apply match_fenced_spec; eauto).
    rewrite (extract_matched response _ ltac:(rewrite Hm; reflexivity)).
    unfold group_or_whole. cbn [m1 m0].
    destruct (String.eqb_spec inner "") as [->|_]; [reflexivity|].
    now destruct (JSON_parse_throws _ Hv) as [msg ->].
  - intros inner v Hf Hb Hv.
    apply match_fenced_none in Hf.
    assert (Hm : match_braces response = Some (mkMatch ("{" ++ inner ++ "}") None))
      by (apply match_braces_spec; eauto).
    rewrite (extract_matched response _ ltac:(rewrite Hf, Hm; reflexivity)).
    unfold group_or_whole. cbn [m1 m0]. now rewrite Hv.
  - intros inner Hf Hb Hv.
    apply match_fenced_none in Hf.
    assert (Hm : match_braces response = Some (mkMatch ("{" ++ inner ++ "}") None))
      by (apply match_braces_spec; eauto).
    rewrite (extract_matched response _ ltac:(rewrite Hf, Hm; reflexivity)).
    unfold group_or_whole. cbn [m1 m0].
    now destruct (JSON_parse_throws _ Hv) as [msg ->].
  - intros Hf Hb. apply match_fenced_none in Hf. apply match_braces_none in Hb.
    apply extract_unmatched. now rewrite Hf, Hb.
Qed.

(** C5 as stated fails: an answer that contains a bare JSON object, here
    two of them, is returned in the envelope, because the text parsed runs
    from the first opening brace to the last closing one; and of two fenced
    blocks only the first is read. *)
Lemma contained_object_not_extracted :
  includes two_objects object_a = true
  /\ JSON_parse object_a = Returns (VObj [("a", VNum 1 0)])
  /\ (forall i, ~ fenced_block two_objects i)
  /\ extractStructured two_objects = Returns (raw_envelope two_objects)
  /\ includes two_blocks (fence_open ++ object_a ++ fence_close) = true
  /\ extractStructured two_blocks = Returns (raw_envelope two_blocks).
Proof.
  repeat split; try (vm_compute; reflexivity).
  apply match_fenced_none. vm_compute. reflexivity.
Qed.

(** ** Request handlers *)

Lemma no_files_total (files : value) : exists b, no_files files = Returns b.
Proof.
  unfold no_files, obind. destruct files; simpl; repeat break_match; eauto; discriminate.
Qed.

Lemma get_prop_no_fuel (v : value) (key : string) : get_prop v key <> OutOfFuel.
Proof. destruct v; simpl; try discriminate; destruct (String.eqb key "length"); discriminate. Qed.

Lemma array_some_no_fuel (items : list value) :
  array_some isMathFile items <> OutOfFuel.
Proof.
  induction items as [|x items IH]; simpl; [discriminate|].
  unfold isMathFile at 1, or_else, name_includes.
  pose proof (get_prop_no_fuel x "name") as Hx.
  destruct (get_prop x "name") as [[| | | | s | |]| |]; simpl; try discriminate;
    try contradiction.
  repeat match goal with
         | |- context [includes ?a ?b] => destruct (includes a b); simpl
         end; try discriminate; exact IH.
Qed.

Lemma isMathContent_total (files : value) :
  (exists b, isMathContent files = Returns b)
  \/ (exists e, isMathContent files = Throws e).
Proof.
  unfold isMathContent, some. destruct files; eauto.
  pose proof (array_some_no_fuel items).
  destruct (array_some isMathFile items); eauto. contradiction.
Qed.

Lemma generateFallbackStudyPlan_total (files targetScore : value) (reviewDays : Z) :
  (exists plan, generateFallbackStudyPlan files targetScore reviewDays = Returns plan)
  \/ (exists e, generateFallbackStudyPlan files targetScore reviewDays = Throws e).
Proof.
  destruct (isMathContent_total files) as [[b H]|[e H]].
  - left. eexists. now apply generateFallbackStudyPlan_spec with (b := b).
  - right. exists e. unfold generateFallbackStudyPlan. now rewrite H.
Qed.

Lemma generateFallbackTestPaper_total (files targetScore questionCount questionType : value) :
  (exists paper,
      generateFallbackTestPaper files targetScore questionCount questionType = Returns paper)
  \/ (exists e,
         generateFallbackTestPaper files targetScore questionCount questionType = Throws e).
Proof.
  destruct (isMathContent_total files) as [[b H]|[e H]].
  - left. eexists. now apply generateFallbackTestPaper_spec with (b := b).
  - right. exists e. unfold generateFallbackTestPaper. now rewrite H.
Qed.

Lemma callDeepSeekAPI_total (system : string) (temp : float) (w : world) :
  (exists text w', callDeepSeekAPI system temp w = (Returns text, w'))
  \/ (exists e w', callDeepSeekAPI system temp w = (Throws e, w')).
Proof.
  unfold callDeepSeekAPI, try_catch, throw, axios_post.
  destruct (key_missing (DEEPSEEK_KEY w)); [eauto|].
  destruct (upstream w (List.length (requests w))); eauto.
Qed.

Lemma array_map_total {A : Type} (callback : value -> outcome A) (items : list value) :
  (forall x, callback x <> OutOfFuel) ->
  array_map callback items <> OutOfFuel.
Proof.
  intros H. induction items as [|x items IH]; simpl; [discriminate|].
  specialize (H x). destruct (callback x); simpl; try congruence.
  destruct (array_map callback items); simpl; congruence.
Qed.

Lemma map_files_total {A : Type} (files : value) (callback : value -> outcome A) :
  (forall x, callback x <> OutOfFuel) ->
  map_files files callback <> OutOfFuel.
Proof.
  intros H. destruct files; simpl; try discriminate. now apply array_map_total.
Qed.

Lemma plan_summary_no_fuel (f : value) : plan_summary f <> OutOfFuel.
Proof.
  unfold plan_summary. pose proof (get_prop_no_fuel f "name").
  pose proof (get_prop_no_fuel f "analysis").
  destruct (get_prop f "name"); simpl; try congruence.
  destruct (get_prop f "analysis"); simpl; congruence.
Qed.

Lemma paper_summary_no_fuel (f : value) : paper_summary f <> OutOfFuel.
Proof.
  unfold paper_summary. pose proof (get_prop_no_fuel f "name").
  pose proof (get_prop_no_fuel f "content"). pose proof (get_prop_no_fuel f "analysis").
  destruct (get_prop f "name"); simpl; try congruence.
  destruct (get_prop f "content") as [content| |]; simpl; try congruence.
  destruct (truthy content); [discriminate|].
  destruct (get_prop f "analysis"); simpl; congruence.
Qed.

(** What a call to the model for a plan or a paper comes to: if the prompt
    can be built, the credential is there and the request is answered, the
    interpretation of the answer; an exception otherwise. *)
Lemma with_model_answer {A : Type} (summaries : outcome (list A)) (l : list A)
    (system response : string) (temp : float) (w w' : world) :
  summaries = Returns l ->
  callDeepSeekAPI system temp w = (Returns response, w') ->
  (_ <- lift summaries ;;
   response <- callDeepSeekAPI system temp ;;
   lift (extractStructured response)) w
  = (extractStructured response, w').
Proof. intros -> H. unfold bind, lift. now rewrite H. Qed.

Lemma with_model_run {A : Type} (summaries : outcome (list A)) (system : string)
    (temp : float) (w : world) :
  summaries <> OutOfFuel ->
  (exists response w',
      (_ <- lift summaries ;;
       response <- callDeepSeekAPI system temp ;;
       lift (extractStructured response)) w
      = (extractStructured response, w'))
  \/ (exists e w',
         (_ <- lift summaries ;;
          response <- callDeepSeekAPI system temp ;;
          lift (extractStructured response)) w
         = (Throws e, w')).
Proof.
  intros Hs. destruct summaries as [l| |] eqn:E; [| |contradiction].
  - destruct (callDeepSeekAPI_total system temp w) as [(text & w' & H)|(e & w' & H)].
    + left. exists text, w'. now apply with_model_answer with (l := l).
    + right. exists e, w'. unfold bind, lift. now rewrite H.
  - right. now exists e, w.
Qed.

Lemma generateStudyPlanWithDeepSeek_total (files targetScore : value) (reviewDays : Z)
    (w : world) :
  (exists v w', generateStudyPlanWithDeepSeek files targetScore reviewDays w = (Returns v, w'))
  \/ (exists e w',
         generateStudyPlanWithDeepSeek files targetScore reviewDays w = (Throws e, w')).
Proof.
  unfold generateStudyPlanWithDeepSeek.
  destruct (with_model_run (map_files files plan_summary) system_plan 0.7%float w
              (map_files_total _ _ plan_summary_no_fuel))
    as [(response & w' & ->)|H]; [left | now right].
  destruct (extractStructured_total response) as [v ->]. eauto.
Qed.

Lemma generateTestPaperWithDeepSeek_total
    (files targetScore questionCount questionType : value) (w : world) :
  (exists v w',
      generateTestPaperWithDeepSeek files targetScore questionCount questionType w
      = (Returns v, w'))
  \/ (exists e w',
         generateTestPaperWithDeepSeek files targetScore questionCount questionType w
         = (Throws e, w')).
Proof.
  unfold generateTestPaperWithDeepSeek.
  destruct (with_model_run (map_files files paper_summary) system_paper 0.5%float w
              (map_files_total _ _ paper_summary_no_fuel))
    as [(response & w' & ->)|H]; [left | now right].
  destruct (extractStructured_total response) as [v ->]. eauto.
Qed.


Lemma generateStudyPlan_missing (b : StudyPlanRequest) (w : world) :
  no_files (sp_files b) = Returns true ->
  generateStudyPlan (Some b) w
  = (Returns (mkResponse 400 (ErrorBody "没有文件内容" None)), w).
Proof. intros H. run_handler. now rewrite H. Qed.

Lemma generateStudyPlan_answer (b : StudyPlanRequest) (w w' : world) (v : value) :
  no_files (sp_files b) = Returns false ->
  generateStudyPlanWithDeepSeek (sp_files b) (sp_targetScore b) (sp_reviewDays b) w
  = (Returns v, w') ->
  generateStudyPlan (Some b) w
  = (Returns (mkResponse 200 (StudyPlanBody true (ModelPlan v) None)), w').
Proof. intros H1 H2. run_handler. now rewrite H1, H2. Qed.

Lemma generateStudyPlan_fallback (b : StudyPlanRequest) (w w' : world) (e : exn)
    (plan : StudyPlan) :
  no_files (sp_files b) = Returns false ->
  generateStudyPlanWithDeepSeek (sp_files b) (sp_targetScore b) (sp_reviewDays b) w
  = (Throws e, w') ->
  generateFallbackStudyPlan (sp_files b) (sp_targetScore b) (sp_reviewDays b)
  = Returns plan ->
  generateStudyPlan (Some b) w
  = (Returns (mkResponse 200 (StudyPlanBody true (FallbackPlan plan)
                                (Some warning_plan_api))), w').
Proof. intros H1 H2 H3. run_handler. now rewrite H1, H2, H3. Qed.

Lemma generateStudyPlan_last_resort (b : StudyPlanRequest) (w w' : world) (e e' : exn) :
  no_files (sp_files b) = Returns false ->
  generateStudyPlanWithDeepSeek (sp_files b) (sp_targetScore b) (sp_reviewDays b) w
  = (Throws e, w') ->
  generateFallbackStudyPlan (sp_files b) (sp_targetScore b) (sp_reviewDays b)
  = Throws e' ->
  generateStudyPlan (Some b) w
  = (Returns (last_resort_plan_response (planFor "计算机基础" 7)), w').
Proof. intros H1 H2 H3. run_handler. now rewrite H1, H2, H3. Qed.


Lemma generateTestPaper_missing (b : TestPaperRequest) (w : world) :
  no_files (tp_files b) = Returns true ->
  generateTestPaper (Some b) w
  = (Returns (mkResponse 400 (ErrorBody "没有文件内容" None)), w).
Proof. intros H. run_handler. now rewrite H. Qed.

Lemma generateTestPaper_answer (b : TestPaperRequest) (w w' : world) (v : value) :
  no_files (tp_files b) = Returns false ->
  generateTestPaperWithDeepSeek (tp_files b) (tp_targetScore b) (tp_questionCount b)
                                (tp_questionType b) w
  = (Returns v, w') ->
  generateTestPaper (Some b) w
  = (Returns (mkResponse 200 (TestPaperBody true (ModelPaper v) None)), w').
Proof. intros H1 H2. run_handler. now rewrite H1, H2. Qed.

Lemma generateTestPaper_fallback (b : TestPaperRequest) (w w' : world) (e : exn)
    (paper : TestPaper) :
  no_files (tp_files b) = Returns false ->
  generateTestPaperWithDeepSeek (tp_files b) (tp_targetScore b) (tp_questionCount b)
                                (tp_questionType b) w
  = (Throws e, w') ->
  generateFallbackTestPaper (tp_files b) (tp_targetScore b) (tp_questionCount b)
                            (tp_questionType b)
  = Returns paper ->
  generateTestPaper (Some b) w
  = (Returns (mkResponse 200 (TestPaperBody true (FallbackPaper paper)
                                (Some warning_paper_api))), w').
Proof. intros H1 H2 H3. run_handler. now rewrite H1, H2, H3. Qed.

Lemma generateTestPaper_last_resort (b : TestPaperRequest) (w w' : world) (e e' : exn) :
  no_files (tp_files b) = Returns false ->
  generateTestPaperWithDeepSeek (tp_files b) (tp_targetScore b) (tp_questionCount b)
                                (tp_questionType b) w
  = (Throws e, w') ->
  generateFallbackTestPaper (tp_files b) (tp_targetScore b) (tp_questionCount b)
                            (tp_questionType b)
  = Throws e' ->
  generateTestPaper (Some b) w
  = (Returns (last_resort_paper_response generalPaper), w').
Proof. intros H1 H2 H3. run_handler. now rewrite H1, H2, H3. Qed.





(** ** The analysis endpoint *)

Lemma read_file_spec (file : UploadedFile) (w : world) :
  exists entry w',
    read_file file w = (Returns entry, w')
    /\ fc_name entry = originalname file
    /\ fc_type entry = mimetype file.
Proof.
  unfold read_file, try_catch, bind, readFileSync, unlinkSync, ret.
  destruct (disk_find (path file) (disk w)); simpl;
    rewrite ?E; repeat break_match; eauto; try discriminate;
    repeat match goal with H : (_, _) = (_, _) |- _ => injection H as <- <- end;
    eauto.
Qed.

Lemma read_loop_spec (files : list UploadedFile) :
  forall (fileContents : list FileContent) (w : world),
  exists entries w',
    read_loop files fileContents w = (Returns (fileContents ++ entries)%list, w')
    /\ map fc_name entries = map originalname files
    /\ map fc_type entries = map mimetype files.
Proof.
  induction files as [|file files IH]; intros acc w; simpl.
  - exists [], w. now rewrite app_nil_r.
  - destruct (read_file_spec file w) as (entry & w1 & Hr & Hname & Htype).
    destruct (IH (acc ++ [entry])%list w1) as (entries & w' & Hl & Hnames & Htypes).
    exists (entry :: entries), w'. unfold bind. rewrite Hr, Hl.
    rewrite <- app_assoc. simpl. now rewrite Hname, Htype, Hnames, Htypes.
Qed.

Lemma analyze_loop_spec (files : list FileContent) :
  forall (fileSummaries : list FileAnalysis) (w : world),
    (exists summaries w',
        analyze_loop files fileSummaries w
        = (Returns (fileSummaries ++ summaries)%list, w')
        /\ map fa_name summaries = map fc_name files)
    \/ (exists e w', analyze_loop files fileSummaries w = (Throws e, w')).
Proof.
  induction files as [|file files IH]; intros acc w; simpl.
  - left. exists [], w. now rewrite app_nil_r.
  - unfold bind.
    destruct (callDeepSeekAPI_total system_analysis 0.7%float w)
      as [(text & w1 & ->)|(e & w1 & ->)]; [|right; eauto].
    destruct (IH (acc ++ [mkFileAnalysis (fc_name file) text])%list w1)
      as [(summaries & w' & -> & Hnames)|(e & w' & ->)]; [left | right; eauto].
    exists (mkFileAnalysis (fc_name file) text :: summaries), w'.
    rewrite <- app_assoc. simpl. now rewrite Hnames.
Qed.

(** C8: on a non-empty list of uploaded files the analysis handler answers
    (status 200, nothing thrown) and the [analysis] of its answer has one
    entry per file, in the order of the files: the summaries of the model
    when every call succeeded, and otherwise, with a warning, the text that
    reports the failure for each file. *)
Theorem analyzeFiles_one_entry_per_file
    (files : list UploadedFile) (w : world) (Hfiles : files <> []) :
  exists fileContents w0 analysis warning w',
    read_loop files [] w = (Returns fileContents, w0)
    /\ analyzeFiles (Some files) w
       = (Returns (mkResponse 200 (AnalysisBody true (map name_and_type fileContents)
                                     analysis warning)), w')
    /\ map fst (map name_and_type fileContents) = map originalname files
    /\ map fa_name analysis = map originalname files
    /\ List.length analysis = List.length files
    /\ ((analyzeFilesWithDeepSeek fileContents w0 = (Returns analysis, w')
         /\ warning = None)
        \/ (exists e,
               analyzeFilesWithDeepSeek fileContents w0 = (Throws e, w')
               /\ warning = Some warning_analysis
               /\ Forall (fun entry => fa_analysis entry = analysis_failed e) analysis)).
Proof.
  destruct (read_loop_spec files [] w) as (fileContents & w0 & Hread & Hnames & Htypes).
  simpl in Hread.
  assert (Hrun : forall resp w',
             (match analyzeFilesWithDeepSeek fileContents w0 with
              | (Returns analysis, w1) =>
                  (Returns (mkResponse 200 (AnalysisBody true (map name_and_type fileContents)
                                              analysis None)), w1)
              | (Throws apiError, w1) =>
                  (Returns (mkResponse 200
                              (AnalysisBody true (map name_and_type fileContents)
                                 (map (fun f => mkFileAnalysis (fc_name f)
                                                  (analysis_failed apiError))
                                      fileContents)
                                 (Some warning_analysis))), w1)
              | (OutOfFuel, w1) => (OutOfFuel, w1)
              end) = (Returns resp, w') ->
             analyzeFiles (Some files) w = (Returns resp, w')).
  { intros resp w' H. destruct files as [|f files]; [contradiction|].
    unfold analyzeFiles, try_catch, bind, res_json, ret. rewrite Hread.
    destruct (analyzeFilesWithDeepSeek fileContents w0) as [[analysis|e|] w1];
      try discriminate; exact H. }
  assert (Hfst : map fst (map name_and_type fileContents) = map originalname files).
  { rewrite map_map. exact Hnames. }
  unfold analyzeFilesWithDeepSeek in *.
  destruct (analyze_loop_spec fileContents [] w0)
    as [(summaries & w' & Hloop & Hsum)|(e & w' & Hloop)]; simpl in Hloop.
  - exists fileContents, w0, summaries, None, w'.
    rewrite Hloop in Hrun.
    split; [exact Hread|]. split; [now apply Hrun|]. split; [exact Hfst|].
    split; [congruence|]. split; [|left; split; [exact Hloop | reflexivity]].
    rewrite <- (length_map fa_name), Hsum, Hnames. apply length_map.
  - exists fileContents, w0,
      (map (fun f => mkFileAnalysis (fc_name f) (analysis_failed e)) fileContents),
      (Some warning_analysis), w'.
    rewrite Hloop in Hrun.
    split; [exact Hread|]. split; [now apply Hrun|]. split; [exact Hfst|].
    split; [rewrite map_map; exact Hnames|]. split.
    + rewrite length_map, <- (length_map fc_name), Hnames. apply length_map.
    + right. exists e. split; [exact Hloop|]. split; [reflexivity|].
      apply Forall_forall. intros entry Hin.
      apply in_map_iff in Hin as (f & <- & _). reflexivity.
Qed.

Lemma analyzeFiles_one_entry_per_file_witness :
  two_uploads <> []
  /\ exists analysis warning w',
       analyzeFiles (Some two_uploads) no_key_world
       = (Returns (mkResponse 200
                     (AnalysisBody true
                        [("第一章.txt", "text/plain"); ("chapter2.md", "text/markdown")]
                        analysis warning)), w')
       /\ map fa_name analysis = ["第一章.txt"; "chapter2.md"].
Proof.
  assert (H : two_uploads <> []) by discriminate.
  split; [exact H|].
  destruct (analyzeFiles_one_entry_per_file two_uploads no_key_world H)
    as (fileContents & w0 & analysis & warning & w' & Hread & Hrun & _ & Hnames & _).
  vm_compute in Hread. injection Hread as <- <-.
  exists analysis, warning, w'. split; [exact Hrun | exact Hnames].
Defined.

(** The two branches of the analysis handler on the same uploads: every
    call answered, and no credential. *)
Example analyzeFiles_answered :
  fst (analyzeFiles (Some two_uploads) answering_world)
  = Returns (mkResponse 200
               (AnalysisBody true
                  [("第一章.txt", "text/plain"); ("chapter2.md", "text/markdown")]
                  [mkFileAnalysis "第一章.txt" "主题：操作系统";
                   mkFileAnalysis "chapter2.md" "主题：操作系统"]
                  None)).
Proof. vm_compute. reflexivity. Qed.

Example analyzeFiles_without_key :
  fst (analyzeFiles (Some two_uploads) no_key_world)
  = Returns (mkResponse 200
               (AnalysisBody true
                  [("第一章.txt", "text/plain"); ("chapter2.md", "text/markdown")]
                  [mkFileAnalysis "第一章.txt" "文件分析失败: DeepSeek API密钥未配置";
                   mkFileAnalysis "chapter2.md" "文件分析失败: DeepSeek API密钥未配置"]
                  (Some warning_analysis))).
Proof. vm_compute. reflexivity. Qed.

(** No upload at all is the one request the analysis handler refuses. *)
Example analyzeFiles_no_upload (w : world) :
  analyzeFiles (Some []) w = (Returns (mkResponse 400 (ErrorBody "未上传文件" None)), w)
  /\ analyzeFiles None w = (Returns (mkResponse 400 (ErrorBody "未上传文件" None)), w).
Proof. split; reflexivity. Qed.

(** A request whose only file has no name, sent while the credential is
    missing: the fallback generator throws on the file, and the plan
    delivered is the one for no files and seven days, not the three asked. *)
Example generateStudyPlan_unnamed_file :
  fst (generateStudyPlan
         (Some (mkStudyPlanRequest (VArr [VObj [("analysis", VStr "函数")]]) (VNum 90 0) 3))
         no_key_world)
  = Returns (last_resort_plan_response (planFor "计算机基础" 7)).
Proof. vm_compute. reflexivity. Qed.

(** The scenario of the specification: a file called math_notes.txt and no
    credential give the mathematics paper, three questions and a warning. *)
Example generateTestPaper_math_notes :
  fst (generateTestPaper
         (Some (mkTestPaperRequest (VArr [VObj [("name", VStr "math_notes.txt")]])
                                   (VNum 85 0) (VNum 10 0) (VStr "all")))
         no_key_world)
  = Returns (mkResponse 200 (TestPaperBody true (FallbackPaper mathPaper)
                               (Some warning_paper_api))).
Proof. vm_compute. reflexivity. Qed.

(** ** Worked answers *)

(** An answer with a fenced block, as the prompts ask for, and an answer
    that is a bare object inside a sentence. *)
Example extract_fenced_answer :
  extractStructured ("复习计划如下：" ++ nl ++ fence_open ++ object_a ++ fence_close ++ nl
                     ++ "祝学习顺利！")
  = Returns (VObj [("a", VNum 1 0)]).
Proof. vm_compute. reflexivity. Qed.

Example extract_bare_answer :
  extractStructured ("结果：" ++ object_a ++ "。") = Returns (VObj [("a", VNum 1 0)]).
Proof. vm_compute. reflexivity. Qed.

(** A fenced block whose interior is empty: the whole block is parsed, and
    the envelope returned. *)
Example extract_empty_block :
  extractStructured (fence_open ++ fence_close)
  = Returns (raw_envelope (fence_open ++ fence_close)).
Proof. vm_compute. reflexivity. Qed.

Example JSON_parse_plan :
  JSON_parse ("{ " ++ dq ++ "total_days" ++ dq ++ ": 2, " ++ dq ++ "daily_plans" ++ dq
              ++ ": [ {" ++ dq ++ "day" ++ dq ++ ": 1, " ++ dq ++ "difficulty" ++ dq ++ ": "
              ++ dq ++ "中等" ++ dq ++ "}, null, true, -0.5e1 ] }" ++ nl)
  = Returns (VObj [("total_days", VNum 2 0);
                   ("daily_plans",
                    VArr [VObj [("day", VNum 1 0); ("difficulty", VStr "中等")];
                          VNull; VBool true; VNum (-5) 0])]).
Proof. vm_compute. reflexivity. Qed.

Example JSON_parse_rejects :
  JSON_parse "[1, 2,]" = Throws (SyntaxError "Unexpected token in JSON")
  /\ JSON_parse "" = Throws (SyntaxError "Unexpected token in JSON")
  /\ JSON_parse "{} {}"
     = Throws (SyntaxError "Unexpected non-whitespace character after JSON").
Proof. repeat split; vm_compute; reflexivity. Qed.

(** ** Requests to the model *)

Lemma sent_nil (w : world) : sent w [] = w.
Proof. destruct w. unfold sent. simpl. now rewrite app_nil_r. Qed.

Lemma sent_sent (w : world) (a b : list request) : sent (sent w a) b = sent w (a ++ b).
Proof. unfold sent. simpl. now rewrite app_assoc. Qed.

Lemma callDeepSeekAPI_no_key (system : string) (temp : float) (w : world) :
  key_missing (DEEPSEEK_KEY w) = true ->
  callDeepSeekAPI system temp w = (Throws (Error "DeepSeek API密钥未配置"), w).
Proof. intros H. unfold callDeepSeekAPI, try_catch, throw. now rewrite H. Qed.

Lemma callDeepSeekAPI_content (system text : string) (temp : float) (w : world) :
  key_missing (DEEPSEEK_KEY w) = false ->
  upstream w (List.length (requests w)) = Content text ->
  callDeepSeekAPI system temp w = (Returns text, sent w [mkRequest system temp]).
Proof.
  intros H1 H2. unfold callDeepSeekAPI, try_catch, throw, axios_post. now rewrite H1, H2.
Qed.

Lemma callDeepSeekAPI_failure (system : string) (temp : float) (w : world) (e : exn) :
  key_missing (DEEPSEEK_KEY w) = false ->
  upstream w (List.length (requests w)) = Failure e ->
  callDeepSeekAPI system temp w = (Throws e, sent w [mkRequest system temp]).
Proof.
  intros H1 H2. unfold callDeepSeekAPI, try_catch, throw, axios_post. now rewrite H1, H2.
Qed.

Lemma answers_from_tail (w : world) (first : nat) (text : string) (texts : list string) :
  answers_from w first (text :: texts) ->
  upstream w first = Content text
  /\ answers_from (sent w [analysis_request]) (S first) texts.
Proof.
  intros H. split.
  - specialize (H O text eq_refl). now rewrite Nat.add_0_r in H.
  - intros i t Hi. simpl. specialize (H (S i) t Hi).
    now rewrite Nat.add_succ_r in H.
Qed.

Lemma analyze_loop_answered (files : list FileContent) :
  forall (texts : list string) (fileSummaries : list FileAnalysis) (w : world),
    key_missing (DEEPSEEK_KEY w) = false ->
    List.length texts = List.length files ->
    answers_from w (List.length (requests w)) texts ->
    analyze_loop files fileSummaries w
    = (Returns (fileSummaries ++ map summary_of (combine files texts))%list,
       sent w (repeat analysis_request (List.length files))).
Proof.
  induction files as [|file files IH]; intros texts acc w Hkey Hlen Hans.
  - simpl. now rewrite app_nil_r, sent_nil.
  - destruct texts as [|text texts]; [discriminate|].
    apply answers_from_tail in Hans as [H0 Htail].
    cbn [analyze_loop]. unfold bind.
    rewrite (callDeepSeekAPI_content _ text _ w Hkey H0).
    fold analysis_request.
    rewrite (IH texts _ (sent w [analysis_request])); trivial.
    + rewrite sent_sent, <- app_assoc. reflexivity.
    + simpl in Hlen. lia.
    + simpl. rewrite List.length_app. simpl.
      now replace (List.length (requests w) + 1)%nat with (S (List.length (requests w)))
        by lia.
Qed.

Lemma analyze_loop_aborted (done : list FileContent) :
  forall (texts : list string) (failing : FileContent) (later : list FileContent)
         (fileSummaries : list FileAnalysis) (w : world) (e : exn),
    key_missing (DEEPSEEK_KEY w) = false ->
    List.length texts = List.length done ->
    answers_from w (List.length (requests w)) texts ->
    upstream w (List.length (requests w) + List.length done)%nat = Failure e ->
    analyze_loop (done ++ failing :: later) fileSummaries w
    = (Throws e, sent w (repeat analysis_request (S (List.length done)))).
Proof.
  induction done as [|file done IH]; intros texts failing later acc w e Hkey Hlen Hans Hfail.
  - cbn [app analyze_loop]. unfold bind. simpl in Hfail. rewrite Nat.add_0_r in Hfail.
    now rewrite (callDeepSeekAPI_failure _ _ w e Hkey Hfail).
  - destruct texts as [|text texts]; [discriminate|].
    apply answers_from_tail in Hans as [H0 Htail].
    cbn [app analyze_loop]. unfold bind.
    rewrite (callDeepSeekAPI_content _ text _ w Hkey H0).
    fold analysis_request.
    rewrite (IH texts failing later _ (sent w [analysis_request]) e); trivial.
    + now rewrite sent_sent.
    + simpl in Hlen. lia.
    + simpl. rewrite List.length_app. simpl.
      now replace (List.length (requests w) + 1)%nat with (S (List.length (requests w)))
        by lia.
    + simpl. rewrite List.length_app. simpl. simpl in Hfail.
      now replace (List.length (requests w) + 1 + List.length done)%nat
        with (List.length (requests w) + S (List.length done))%nat by lia.
Qed.

(** X1: with a credential, when the model answers the next requests with
    [texts], one per file, [analyzeFilesWithDeepSeek] returns the files'
    names paired with these answers, in order, and has sent exactly one
    request per file. *)
Theorem analyzeFilesWithDeepSeek_answered
    (files : list FileContent) (texts : list string) (w : world) :
  key_missing (DEEPSEEK_KEY w) = false ->
  List.length texts = List.length files ->
  answers_from w (List.length (requests w)) texts ->
  analyzeFilesWithDeepSeek files w
  = (Returns (map summary_of (combine files texts)),
     sent w (repeat analysis_request (List.length files))).
Proof.
  intros Hkey Hlen Hans. unfold analyzeFilesWithDeepSeek.
  now rewrite (analyze_loop_answered files texts [] w Hkey Hlen Hans).
Qed.

(** X2: with a credential, when the requests for the first files are
    answered and the next one fails, [analyzeFilesWithDeepSeek] throws the
    error of that request; the files after it are never sent, and the
    answers already received are dropped. *)
Theorem analyzeFilesWithDeepSeek_aborted
    (done : list FileContent) (failing : FileContent) (later : list FileContent)
    (texts : list string) (w : world) (e : exn) :
  key_missing (DEEPSEEK_KEY w) = false ->
  List.length texts = List.length done ->
  answers_from w (List.length (requests w)) texts ->
  upstream w (List.length (requests w) + List.length done)%nat = Failure e ->
  analyzeFilesWithDeepSeek (done ++ failing :: later) w
  = (Throws e, sent w (repeat analysis_request (S (List.length done)))).
Proof.
  intros Hkey Hlen Hans Hfail. unfold analyzeFilesWithDeepSeek.
  now apply analyze_loop_aborted with (texts := texts).
Qed.

Lemma analyzeFilesWithDeepSeek_answered_witness :
  key_missing (DEEPSEEK_KEY answering_world) = false
  /\ answers_from answering_world 0 ["主题：操作系统"; "主题：操作系统"]
  /\ analyzeFilesWithDeepSeek [chapter1; chapter2] answering_world
     = (Returns [mkFileAnalysis "第一章.txt" "主题：操作系统";
                 mkFileAnalysis "chapter2.md" "主题：操作系统"],
        sent answering_world [analysis_request; analysis_request]).
Proof.
  assert (Hkey : key_missing (DEEPSEEK_KEY answering_world) = false) by reflexivity.
  assert (Hans : answers_from answering_world 0 ["主题：操作系统"; "主题：操作系统"]).
  { intros [|[|[|i]]] text H; simpl in H; try discriminate H;
      injection H as <-; reflexivity. }
  split; [exact Hkey|]. split; [exact Hans|].
  exact (analyzeFilesWithDeepSeek_answered [chapter1; chapter2]
           ["主题：操作系统"; "主题：操作系统"] answering_world Hkey eq_refl Hans).
Defined.

Lemma analyzeFilesWithDeepSeek_aborted_witness :
  key_missing (DEEPSEEK_KEY flaky_world) = false
  /\ answers_from flaky_world 0 ["主题：操作系统"]
  /\ upstream flaky_world 1 = Failure rate_limited
  /\ analyzeFilesWithDeepSeek [chapter1; chapter2; chapter3] flaky_world
     = (Throws rate_limited, sent flaky_world [analysis_request; analysis_request]).
Proof.
  assert (Hkey : key_missing (DEEPSEEK_KEY flaky_world) = false) by reflexivity.
  assert (Hans : answers_from flaky_world 0 ["主题：操作系统"]).
  { intros [|[|i]] text H; simpl in H; try discriminate H;
      injection H as <-; reflexivity. }
  assert (Hfail : upstream flaky_world (List.length (requests flaky_world)
                                        + List.length [chapter1])%nat
                  = Failure rate_limited) by reflexivity.
  split; [exact Hkey|]. split; [exact Hans|]. split; [reflexivity|].
  exact (analyzeFilesWithDeepSeek_aborted [chapter1] chapter2 [chapter3]
           ["主题：操作系统"] flaky_world rate_limited Hkey eq_refl Hans Hfail).
Defined.

(** ** Uploaded files *)


Lemma disk_remove_absent (p : string) (d : list (string * string)) :
  disk_find p d = None -> disk_remove p d = d.
Proof.
  induction d as [|[k c] d IH]; simpl; [reflexivity|].
  destruct (String.eqb k p); [discriminate|]. simpl. intros H. now rewrite IH.
Qed.

Lemma read_file_world (file : UploadedFile) (w : world) :
  exists entry, read_file file w = (Returns entry, unlinked w [file]).
Proof.
  unfold read_file, try_catch, bind, readFileSync, unlinkSync, ret, unlinked.
  cbn [fold_left disk].
  destruct (disk_find (path file) (disk w)) eqn:E; cbn [disk]; rewrite E;
    eexists; [reflexivity|].
  rewrite (disk_remove_absent _ _ E). now destruct w.
Qed.

Lemma unlinked_app (w : world) (a b : list UploadedFile) :
  unlinked (unlinked w a) b = unlinked w (a ++ b).
Proof. unfold unlinked. simpl. now rewrite fold_left_app. Qed.

Lemma read_loop_world (files : list UploadedFile) :
  forall (fileContents : list FileContent) (w : world),
  exists out, read_loop files fileContents w = (Returns out, unlinked w files).
Proof.
  induction files as [|file files IH]; intros acc w; simpl.
  - exists acc. unfold ret, unlinked. simpl. now destruct w.
  - destruct (read_file_world file w) as [entry Hr]. unfold bind. rewrite Hr.
    destruct (IH (acc ++ [entry])%list (unlinked w [file])) as [out ->].
    exists out. now rewrite unlinked_app.
Qed.


(** What the requests of the analysis do to the world: some of them are
    sent, at most one per file, and all of them when every one is answered. *)
Lemma analyze_loop_world (files : list FileContent) :
  forall (fileSummaries : list FileAnalysis) (w : world),
  exists k,
    (k <= List.length files)%nat
    /\ snd (analyze_loop files fileSummaries w) = sent w (repeat analysis_request k)
    /\ (key_missing (DEEPSEEK_KEY w) = true -> k = O)
    /\ (forall out, fst (analyze_loop files fileSummaries w) = Returns out ->
          k = List.length files).
Proof.
  induction files as [|file files IH]; intros acc w.
  - exists O. simpl. rewrite sent_nil. repeat split; auto.
  - cbn [analyze_loop]. unfold bind.
    destruct (key_missing (DEEPSEEK_KEY w)) eqn:Hkey.
    { rewrite (callDeepSeekAPI_no_key _ _ w Hkey). exists O. simpl.
      rewrite sent_nil. repeat split; auto; try lia. discriminate. }
    destruct (upstream w (List.length (requests w))) as [text|e] eqn:Hup.
    + rewrite (callDeepSeekAPI_content _ text _ w Hkey Hup). fold analysis_request.
      destruct (IH (acc ++ [mkFileAnalysis (fc_name file) text])%list
                  (sent w [analysis_request])) as (k & Hk & Hw & _ & Hall).
      exists (S k). rewrite Hw, sent_sent. simpl. repeat split; try lia; try discriminate.
      intros out Hout. f_equal. now apply Hall with (out := out).
    + rewrite (callDeepSeekAPI_failure _ _ w e Hkey Hup). fold analysis_request.
      exists 1%nat. simpl. repeat split; try lia; discriminate.
Qed.

Lemma analyzeFiles_run (files : list UploadedFile) (fileContents : list FileContent)
    (w w0 : world) :
  files <> [] ->
  read_loop files [] w = (Returns fileContents, w0) ->
  analyzeFiles (Some files) w
  = match analyzeFilesWithDeepSeek fileContents w0 with
    | (Returns analysis, w1) =>
        (Returns (mkResponse 200 (AnalysisBody true (map name_and_type fileContents)
                                    analysis None)), w1)
    | (Throws apiError, w1) =>
        (Returns (mkResponse 200
                    (AnalysisBody true (map name_and_type fileContents)
                       (map (fun f => mkFileAnalysis (fc_name f) (analysis_failed apiError))
                            fileContents)
                       (Some warning_analysis))), w1)
    | (OutOfFuel, w1) => (OutOfFuel, w1)
    end.
Proof.
  intros Hne Hread. destruct files as [|f files]; [contradiction|].
  unfold analyzeFiles, try_catch, bind, res_json, ret. rewrite Hread.
  now destruct (analyzeFilesWithDeepSeek fileContents w0) as [[analysis|e|] w1].
Qed.

Lemma analyzeFiles_world (files : list UploadedFile) (w : world) :
  exists k,
    (k <= List.length files)%nat
    /\ snd (analyzeFiles (Some files) w)
       = sent (unlinked w files) (repeat analysis_request k)
    /\ (key_missing (DEEPSEEK_KEY w) = true -> k = O)
    /\ (forall b names analysis,
          fst (analyzeFiles (Some files) w)
          = Returns (mkResponse 200 (AnalysisBody b names analysis None)) ->
          k = List.length files).
Proof.
  destruct files as [|f files].
  { exists O. simpl. unfold unlinked, sent. simpl. rewrite app_nil_r.
    repeat split; auto. now destruct w. }
  destruct (read_loop_world (f :: files) [] w) as [fileContents Hread].
  destruct (read_loop_spec (f :: files) [] w) as (entries & w0 & Hread' & Hnames & _).
  simpl app in Hread'. rewrite Hread in Hread'. injection Hread' as -> <-.
  assert (Hne : f :: files <> []) by discriminate.
  rewrite (analyzeFiles_run _ _ _ _ Hne Hread).
  unfold analyzeFilesWithDeepSeek.
  destruct (analyze_loop_world entries [] (unlinked w (f :: files)))
    as (k & Hk & Hw & Hkey & Hall).
  assert (Hlen : List.length entries = List.length (f :: files)).
  { rewrite <- (length_map fc_name), Hnames. apply length_map. }
  exists k. rewrite <- Hlen.
  destruct (analyze_loop entries [] (unlinked w (f :: files))) as [[out|e|] w1] eqn:E;
    simpl in *; repeat split; auto; try discriminate.
  intros b names analysis _. now apply Hall with (out := out).
Qed.


(** X5: the analysis handler sends at most one request per uploaded file,
    each with the analysis system message and temperature 0.7; none when
    the credential is missing; and one for every file when its answer
    carries no warning. *)
Theorem analyzeFiles_requests (files : list UploadedFile) (w : world) :
  exists k,
    (k <= List.length files)%nat
    /\ requests (snd (analyzeFiles (Some files) w))
       = (requests w ++ repeat analysis_request k)%list
    /\ (key_missing (DEEPSEEK_KEY w) = true -> k = O)
    /\ (forall b names analysis,
          fst (analyzeFiles (Some files) w)
          = Returns (mkResponse 200 (AnalysisBody b names analysis None)) ->
          k = List.length files).
Proof.
  destruct (analyzeFiles_world files w) as (k & Hk & Hw & Hkey & Hall).
  exists k. rewrite Hw. repeat split; auto.
Qed.






(** ** The plan and paper handlers and the model *)

Lemma with_model_world {A : Type} (summaries : outcome (list A)) (system : string)
    (temp : float) (w : world) :
  (snd ((_ <- lift summaries ;;
         response <- callDeepSeekAPI system temp ;;
         lift (extractStructured response)) w) = w
   \/ snd ((_ <- lift summaries ;;
            response <- callDeepSeekAPI system temp ;;
            lift (extractStructured response)) w) = sent w [mkRequest system temp])
  /\ (key_missing (DEEPSEEK_KEY w) = true ->
      snd ((_ <- lift summaries ;;
            response <- callDeepSeekAPI system temp ;;
            lift (extractStructured response)) w) = w).
Proof.
  unfold bind, lift. destruct summaries as [l|e|]; [|now split; auto..].
  destruct (key_missing (DEEPSEEK_KEY w)) eqn:Hkey.
  - rewrite (callDeepSeekAPI_no_key _ _ w Hkey). now split; auto.
  - destruct (upstream w (List.length (requests w))) as [text|e] eqn:Hup.
    + rewrite (callDeepSeekAPI_content _ text _ w Hkey Hup). split; [now right | discriminate].
    + rewrite (callDeepSeekAPI_failure _ _ w e Hkey Hup). split; [now right | discriminate].
Qed.

Lemma generateStudyPlan_world (b : StudyPlanRequest) (w : world) :
  no_files (sp_files b) = Returns false ->
  snd (generateStudyPlan (Some b) w)
  = snd (generateStudyPlanWithDeepSeek (sp_files b) (sp_targetScore b) (sp_reviewDays b) w).
Proof.
  intros Hn.
  destruct (generateStudyPlanWithDeepSeek_total (sp_files b) (sp_targetScore b)
              (sp_reviewDays b) w) as [(v & w' & Hv)|(e & w' & He)].
  - now rewrite (generateStudyPlan_answer _ _ _ _ Hn Hv), Hv.
  - destruct (generateFallbackStudyPlan_total (sp_files b) (sp_targetScore b)
                (sp_reviewDays b)) as [[plan Hp]|[e' He']].
    + now rewrite (generateStudyPlan_fallback _ _ _ _ _ Hn He Hp), He.
    + now rewrite (generateStudyPlan_last_resort _ _ _ _ _ Hn He He'), He.
Qed.

Lemma generateTestPaper_world (b : TestPaperRequest) (w : world) :
  no_files (tp_files b) = Returns false ->
  snd (generateTestPaper (Some b) w)
  = snd (generateTestPaperWithDeepSeek (tp_files b) (tp_targetScore b) (tp_questionCount b)
                                       (tp_questionType b) w).
Proof.
  intros Hn.
  destruct (generateTestPaperWithDeepSeek_total (tp_files b) (tp_targetScore b)
              (tp_questionCount b) (tp_questionType b) w)
    as [(v & w' & Hv)|(e & w' & He)].
  - now rewrite (generateTestPaper_answer _ _ _ _ Hn Hv), Hv.
  - destruct (generateFallbackTestPaper_total (tp_files b) (tp_targetScore b)
                (tp_questionCount b) (tp_questionType b)) as [[paper Hp]|[e' He']].
    + now rewrite (generateTestPaper_fallback _ _ _ _ _ Hn He Hp), He.
    + now rewrite (generateTestPaper_last_resort _ _ _ _ _ Hn He He'), He.
Qed.

(** X6: handling one request for a plan or a paper sends at most one
    request to the model, with the plan system message and temperature 0.7
    or the paper system message and temperature 0.5; a failed request is not
    repeated, nothing else of the world changes, and without a credential
    no request is sent at all. *)
Theorem plan_and_paper_send_one_request (w : world) :
  (forall body,
      (snd (generateStudyPlan body w) = w
       \/ snd (generateStudyPlan body w) = sent w [plan_request_sent])
      /\ (key_missing (DEEPSEEK_KEY w) = true -> snd (generateStudyPlan body w) = w))
  /\ (forall body,
        (snd (generateTestPaper body w) = w
         \/ snd (generateTestPaper body w) = sent w [paper_request_sent])
        /\ (key_missing (DEEPSEEK_KEY w) = true -> snd (generateTestPaper body w) = w)).
Proof.
  split; intros [b|]; try (split; [left|intros _]; reflexivity).
  - destruct (no_files_total (sp_files b)) as [[|] Hn].
    + rewrite (generateStudyPlan_missing _ _ Hn). split; auto.
    + rewrite (generateStudyPlan_world _ _ Hn). unfold generateStudyPlanWithDeepSeek.
      apply with_model_world.
  - destruct (no_files_total (tp_files b)) as [[|] Hn].
    + rewrite (generateTestPaper_missing _ _ Hn). split; auto.
    + rewrite (generateTestPaper_world _ _ Hn). unfold generateTestPaperWithDeepSeek.
      apply with_model_world.
Qed.










(** ** The scan of the file names *)

Lemma isMathFile_unnamed (file : value) :
  unnamed_file file -> exists msg, isMathFile file = Throws (TypeError msg).
Proof.
  intros H. unfold isMathFile, or_else, name_includes.
  destruct file; simpl in *; eauto;
    try (unfold unnamed_file in H; simpl in H).
  destruct (lookup_prop "name" props) eqn:E; simpl; eauto.
  now contradiction (H s).
Qed.

Lemma isMathFile_plain (file : value) : plain_file file -> isMathFile file = Returns false.
Proof. intros (s & Hs & Hm). now rewrite (isMathFile_named _ _ Hs), Hm. Qed.

Lemma isMathFile_math (file : value) : math_file file -> isMathFile file = Returns true.
Proof. intros (s & Hs & Hm). now rewrite (isMathFile_named _ _ Hs), Hm. Qed.

Lemma array_some_plain_prefix (pre rest : list value) :
  Forall plain_file pre ->
  array_some isMathFile (pre ++ rest) = array_some isMathFile rest.
Proof.
  induction 1 as [|f pre Hf _ IH]; simpl; [reflexivity|].
  now rewrite (isMathFile_plain _ Hf).
Qed.

(** X9: both fallback generators read the file names in order and stop at
    the first file that decides.  If the first file that is not a plain one
    has a name with a needle, the mathematics output is returned and the
    files after it are not looked at, whatever they are; if it has no
    string name, a [TypeError] is thrown; if all files are plain, the
    general output is returned. *)
Theorem fallback_scans_until_decided
    (items : list value) (targetScore questionCount questionType : value)
    (reviewDays : Z) :
  (forall pre m rest,
      items = (pre ++ m :: rest)%list -> Forall plain_file pre -> math_file m ->
      generateFallbackTestPaper (VArr items) targetScore questionCount questionType
      = Returns mathPaper
      /\ generateFallbackStudyPlan (VArr items) targetScore reviewDays
         = Returns (planFor "数学" reviewDays))
  /\ (forall pre bad rest,
        items = (pre ++ bad :: rest)%list -> Forall plain_file pre -> unnamed_file bad ->
        exists msg,
          generateFallbackTestPaper (VArr items) targetScore questionCount questionType
          = Throws (TypeError msg)
          /\ generateFallbackStudyPlan (VArr items) targetScore reviewDays
             = Throws (TypeError msg))
  /\ (Forall plain_file items ->
      generateFallbackTestPaper (VArr items) targetScore questionCount questionType
      = Returns generalPaper
      /\ generateFallbackStudyPlan (VArr items) targetScore reviewDays
         = Returns (planFor "计算机基础" reviewDays)).
Proof.
  repeat split.
  - apply generateFallbackTestPaper_spec with (b := true).
    unfold isMathContent, some. subst items.
    rewrite (array_some_plain_prefix _ _ H0). simpl. now rewrite (isMathFile_math _ H1).
  - apply generateFallbackStudyPlan_spec with (b := true).
    unfold isMathContent, some. subst items.
    rewrite (array_some_plain_prefix _ _ H0). simpl. now rewrite (isMathFile_math _ H1).
  - intros pre bad rest -> Hpre Hbad.
    destruct (isMathFile_unnamed _ Hbad) as [msg Hmsg]. exists msg.
    unfold generateFallbackTestPaper, generateFallbackStudyPlan, isMathContent, some.
    rewrite (array_some_plain_prefix _ _ Hpre). simpl. now rewrite Hmsg.
  - apply generateFallbackTestPaper_spec with (b := false).
    unfold isMathContent, some. rewrite <- (app_nil_r items).
    now rewrite (array_some_plain_prefix _ _ H).
  - apply generateFallbackStudyPlan_spec with (b := false).
    unfold isMathContent, some. rewrite <- (app_nil_r items).
    now rewrite (array_some_plain_prefix _ _ H).
Qed.

(** A mathematics file before a [null] entry gives the mathematics paper;
    the same two entries the other way round throw. *)
Example scan_stops_at_mathematics :
  generateFallbackTestPaper (VArr [VObj [("name", VStr "Algebra-数学.pdf")]; VNull])
                            VUndefined VUndefined VUndefined
  = Returns mathPaper
  /\ generateFallbackTestPaper (VArr [VNull; VObj [("name", VStr "Algebra-数学.pdf")]])
                               VUndefined VUndefined VUndefined
     = Throws (TypeError "Cannot read properties of null (reading 'name')").
Proof. split; reflexivity. Qed.

Lemma existsb_permutation {A : Type} (f : A -> bool) (l l' : list A) :
  Permutation l l' -> existsb f l = existsb f l'.
Proof.
  induction 1 as [|x l l' _ IH|x y l|l l' l'' _ IH1 _ IH2]; simpl.
  - reflexivity.
  - now rewrite IH.
  - now destruct (f x), (f y).
  - now rewrite IH1.
Qed.

(** X10: for files that all have a string name, the order of the files does
    not matter to the fallback generators: two lists with the same files
    give the same paper and the same plan. *)
Theorem fallback_ignores_order
    (files files' : list FileAnalysis) (targetScore questionCount questionType : value)
    (reviewDays : Z) :
  Permutation files files' ->
  generateFallbackTestPaper (files_value files) targetScore questionCount questionType
  = generateFallbackTestPaper (files_value files') targetScore questionCount questionType
  /\ generateFallbackStudyPlan (files_value files) targetScore reviewDays
     = generateFallbackStudyPlan (files_value files') targetScore reviewDays.
Proof.
  intros Hperm.
  rewrite !(generateFallbackTestPaper_spec _ _ _ _ _ (isMathContent_files _)).
  rewrite !(generateFallbackStudyPlan_spec _ _ _ _ (isMathContent_files _)).
  now rewrite (existsb_permutation _ _ _ Hperm).
Qed.

Lemma fallback_ignores_order_witness :
  Permutation [mkFileAnalysis "英语.txt" ""; mkFileAnalysis "几何.txt" ""]
              [mkFileAnalysis "几何.txt" ""; mkFileAnalysis "英语.txt" ""]
  /\ generateFallbackStudyPlan
       (files_value [mkFileAnalysis "英语.txt" ""; mkFileAnalysis "几何.txt" ""])
       (VNum 85 0) 4
     = generateFallbackStudyPlan
         (files_value [mkFileAnalysis "几何.txt" ""; mkFileAnalysis "英语.txt" ""])
         (VNum 85 0) 4.
Proof.
  assert (H : Permutation [mkFileAnalysis "英语.txt" ""; mkFileAnalysis "几何.txt" ""]
                          [mkFileAnalysis "几何.txt" ""; mkFileAnalysis "英语.txt" ""])
    by apply perm_swap.
  split; [exact H|].
  exact (proj2 (fallback_ignores_order _ _ (VNum 85 0) VUndefined VUndefined 4 H)).
Defined.

(** ** The days of a fallback plan *)

Lemma days_from_In (k : nat) :
  forall i d, In d (days_from i k) <-> i <= d < i + Z.of_nat k.
Proof.
  induction k as [|k IH]; intros i d; cbn [days_from In].
  - lia.
  - rewrite IH. lia.
Qed.

Lemma append_assoc_s (a b c : string) : (a ++ b) ++ c = a ++ b ++ c.
Proof. induction a as [|x a IH]; simpl; [reflexivity | now rewrite IH]. Qed.

(** X11: whatever the files and the number of days, every day of a plan of
    the fallback generator is numbered between 1 and the number of days,
    has the same five slots at the same times with the same activities,
    three objectives and three key points, and a title that starts with its
    number. *)
Theorem fallback_day_layout
    (files targetScore : value) (reviewDays : Z) (plan : StudyPlan) (d : DailyPlan) :
  generateFallbackStudyPlan files targetScore reviewDays = Returns plan ->
  In d (daily_plans plan) ->
  1 <= day d <= reviewDays
  /\ map time (schedule d) = slot_times
  /\ map activity (schedule d) = slot_activities
  /\ List.length (objectives d) = 3%nat
  /\ List.length (key_points d) = 3%nat
  /\ startsWith (dp_title d) ("第" ++ string_of_Z (day d) ++ "天：") = true.
Proof.
  intros Hplan Hin.
  destruct (isMathContent_total files) as [[b Hb]|[e He]].
  - rewrite (generateFallbackStudyPlan_spec _ _ _ _ Hb) in Hplan.
    injection Hplan as <-. cbn [planFor daily_plans] in Hin.
    apply in_map_iff in Hin as (i & <- & Hi). apply days_from_In in Hi.
    repeat split; try reflexivity; cbn [dailyPlan day]; try lia.
    cbn [dp_title]. apply startsWith_spec.
    eexists. rewrite !append_assoc_s. reflexivity.
  - unfold generateFallbackStudyPlan in Hplan. rewrite He in Hplan. discriminate.
Qed.

Lemma fallback_day_layout_witness :
  generateFallbackStudyPlan (VArr []) (VNum 85 0) 2 = Returns (planFor "计算机基础" 2)
  /\ In (dailyPlan "计算机基础" 2 2) (daily_plans (planFor "计算机基础" 2))
  /\ map time (schedule (dailyPlan "计算机基础" 2 2)) = slot_times
  /\ startsWith (dp_title (dailyPlan "计算机基础" 2 2)) "第2天：" = true.
Proof.
  assert (H : generateFallbackStudyPlan (VArr []) (VNum 85 0) 2
              = Returns (planFor "计算机基础" 2)) by reflexivity.
  assert (Hin : In (dailyPlan "计算机基础" 2 2) (daily_plans (planFor "计算机基础" 2)))
    by (simpl; auto).
  split; [exact H|]. split; [exact Hin|].
  destruct (fallback_day_layout _ _ _ _ _ H Hin) as (_ & Htimes & _ & _ & _ & Htitle).
  split; [exact Htimes | exact Htitle].
Defined.

(** ** Answers that follow the conventions *)

Lemma extract_fenced (response inner : string) :
  fenced_block response inner ->
  extractStructured response
  = Returns (match JSON_parse (if String.eqb inner "" then fence_open ++ inner ++ fence_close
                               else inner) with
             | Returns v => v
             | _ => raw_envelope response
             end).
Proof.
  intros Hb.
  assert (Hm : match_fenced response
               = Some (mkMatch (fence_open ++ inner ++ fence_close) (Some inner)))
    by (apply match_fenced_spec; eauto).
  rewrite (extract_matched response (mkMatch (fence_open ++ inner ++ fence_close) (Some inner)));
    [reflexivity|].
  now rewrite Hm.
Qed.

Lemma extract_braced (response inner : string) :
  match_fenced response = None ->
  braced_span response inner ->
  extractStructured response
  = Returns (match JSON_parse ("{" ++ inner ++ "}") with
             | Returns v => v
             | _ => raw_envelope response
             end).
Proof.
  intros Hf Hb.
  assert (Hm : match_braces response = Some (mkMatch ("{" ++ inner ++ "}") None))
    by (apply match_braces_spec; eauto).
  rewrite (extract_matched response (mkMatch ("{" ++ inner ++ "}") None)); [reflexivity|].
  now rewrite Hf, Hm.
Qed.

Lemma parse_value_brace (fuel : nat) (rest : string) :
  parse_value (S fuel) (String "{" rest)
  = match strip_prefix "}" (skip_ws rest) with
    | Some rest' => POk (VObj []) rest'
    | None => map_parsed VObj (parse_members fuel rest)
    end.
Proof. reflexivity. Qed.

Lemma JSON_parse_brace (rest : string) (v : value) :
  JSON_parse (String "{" rest) = Returns v -> exists props, v = VObj props.
Proof.
  unfold JSON_parse, parse_fuel. cbn [String.length].
  replace (2 * S (String.length rest) + 2)%nat
    with (S (2 * String.length rest + 3)) by lia.
  rewrite parse_value_brace.
  destruct (strip_prefix "}" (skip_ws rest)) as [rest'|].
  - destruct (skip_ws rest'); intros [= <-]; eauto.
  - destruct (parse_members _ rest) as [props rest'| |]; simpl; try discriminate.
    destruct (skip_ws rest'); intros [= <-]; eauto.
Qed.

(** X12: when the answer has no fenced block, what its interpretation
    returns is always an object: the object parsed from the braces, or the
    envelope.  An answer that is a JSON array, number or string is never
    returned as such. *)
Theorem unfenced_answer_gives_object (response : string) :
  (forall inner, ~ fenced_block response inner) ->
  exists props, extractStructured response = Returns (VObj props).
Proof.
  intros Hf. apply match_fenced_none in Hf.
  destruct (match_braces response) as [m|] eqn:Hm.
  - apply match_braces_spec in Hm as (inner & Hb & _).
    rewrite (extract_braced _ _ Hf Hb).
    destruct (JSON_parse ("{" ++ inner ++ "}")) as [v| |] eqn:Hv;
      try (eexists; reflexivity).
    apply JSON_parse_brace in Hv as [props ->]. now exists props.
  - rewrite extract_unmatched; [eexists; reflexivity|]. now rewrite Hf, Hm.
Qed.

Lemma unfenced_answer_gives_object_witness :
  (forall inner, ~ fenced_block array_answer inner)
  /\ exists props,
       extractStructured array_answer = Returns (VObj props)
       /\ JSON_parse array_answer = Returns (VArr [VObj props]).
Proof.
  assert (H : forall inner, ~ fenced_block array_answer inner)
    by (apply match_fenced_none; vm_compute; reflexivity).
  split; [exact H|].
  destruct (unfenced_answer_gives_object array_answer H) as [props Hp].
  exists props. split; [exact Hp|].
  vm_compute in Hp. injection Hp as <-. vm_compute. reflexivity.
Defined.

Lemma app_split (b : string) :
  forall pre y z,
    pre ++ y = b ++ z -> (String.length b < String.length pre)%nat ->
    exists c x, pre = b ++ String c x /\ z = String c x ++ y.
Proof.
  induction b as [|d b IH]; intros pre y z Heq Hlen.
  - destruct pre as [|c x]; [simpl in Hlen; lia|]. exists c, x. simpl in *. now subst.
  - destruct pre as [|c x]; [simpl in Hlen; lia|].
    simpl in Heq. injection Heq as -> Heq.
    destruct (IH x y z Heq ltac:(simpl in Hlen; lia)) as (c' & x' & -> & ->).
    now exists c', x'.
Qed.

Lemma includes_char_false (c : ascii) (s b a : string) :
  includes s (String c "") = false -> s <> b ++ String c a.
Proof.
  intros H Heq.
  assert (Ht : includes s (String c "") = true)
    by (apply includes_spec; now exists b, a).
  congruence.
Qed.

(** A needle whose first character does not occur before it occurs there
    first. *)
Lemma first_occurrence_head (c : ascii) (needle pre after : string) :
  includes pre (String c "") = false ->
  first_occurrence (String c needle) (pre ++ String c needle ++ after) pre after.
Proof.
  intros Hpre. split; [reflexivity|]. intros b a Heq.
  destruct (Nat.le_gt_cases (String.length pre) (String.length b)) as [|Hlt]; [assumption|].
  exfalso. destruct (app_split _ _ _ _ Heq Hlt) as (d & x & Hp & Hz).
  simpl in Hz. injection Hz as <- _.
  now apply (includes_char_false c pre b x).
Qed.

(** So does a needle whose second character differs from its first and does
    not occur before it. *)
Lemma first_occurrence_second (c1 c2 : ascii) (needle pre after : string) :
  c1 <> c2 ->
  includes pre (String c2 "") = false ->
  first_occurrence (String c1 (String c2 needle))
                   (pre ++ String c1 (String c2 needle) ++ after) pre after.
Proof.
  intros Hne Hpre. split; [reflexivity|]. intros b a Heq.
  destruct (Nat.le_gt_cases (String.length pre) (String.length b)) as [|Hlt]; [assumption|].
  exfalso. destruct (app_split _ _ _ _ Heq Hlt) as (d & x & Hp & Hz).
  simpl in Hz. injection Hz as <- Hz.
  destruct x as [|d2 x]; simpl in Hz; injection Hz as Hd _.
  - congruence.
  - subst d2. apply (includes_char_false c2 pre (b ++ String c1 "") x Hpre).
    rewrite Hp. now rewrite append_assoc_s.
Qed.

(** A needle of one character that does not occur after it occurs there
    last. *)
Lemma last_occurrence_tail (c : ascii) (pre after : string) :
  includes after (String c "") = false ->
  last_occurrence (String c "") (pre ++ String c "" ++ after) pre after.
Proof.
  intros Hafter. split; [reflexivity|]. intros b a Heq.
  destruct (Nat.le_gt_cases (String.length b) (String.length pre)) as [|Hlt]; [assumption|].
  exfalso. symmetry in Heq.
  destruct (app_split _ _ _ _ Heq Hlt) as (d & x & Hp & Hz).
  simpl in Hz. injection Hz as <- Hz.
  now apply (includes_char_false c after x a).
Qed.

Lemma no_backtick_no_fence (response : string) :
  includes response backtick = false -> match_fenced response = None.
Proof.
  intros H. unfold match_fenced.
  destruct (find_first fence_open response) as [[before after]|] eqn:F; [|reflexivity].
  apply find_first_sound in F as [F _]. exfalso.
  now apply (includes_char_false _ _ before ("``json" ++ nl ++ after) H).
Qed.

(** X13: an answer that keeps to the fenced convention is read.  If the
    text before the opening fence has no backtick, and the interior of the
    block has none and is valid JSON, the value of the interior is
    returned, whatever follows the closing fence. *)
Theorem fenced_answer_is_read (prose inner tail : string) (v : value) :
  includes prose backtick = false ->
  includes inner backtick = false ->
  JSON_parse inner = Returns v ->
  extractStructured (prose ++ fence_open ++ inner ++ fence_close ++ tail) = Returns v.
Proof.
  intros Hprose Hinner Hv.
  assert (Hb : fenced_block (prose ++ fence_open ++ inner ++ fence_close ++ tail) inner).
  { exists prose, (inner ++ fence_close ++ tail), tail. split.
    - apply (first_occurrence_head _ _ _ _ Hprose).
    - apply first_occurrence_second; [discriminate | exact Hinner]. }
  rewrite (extract_fenced _ _ Hb).
  destruct (String.eqb_spec inner "") as [->|_]; [discriminate Hv|]. now rewrite Hv.
Qed.

Lemma fenced_answer_is_read_witness :
  includes "好的，计划如下：" backtick = false
  /\ includes object_a backtick = false
  /\ JSON_parse object_a = Returns (VObj [("a", VNum 1 0)])
  /\ extractStructured ("好的，计划如下：" ++ fence_open ++ object_a ++ fence_close
                        ++ " 另见 {备注}")
     = Returns (VObj [("a", VNum 1 0)]).
Proof.
  assert (H1 : includes "好的，计划如下：" backtick = false) by (vm_compute; reflexivity).
  assert (H2 : includes object_a backtick = false) by (vm_compute; reflexivity).
  assert (H3 : JSON_parse object_a = Returns (VObj [("a", VNum 1 0)]))
    by (vm_compute; reflexivity).
  split; [exact H1|]. split; [exact H2|]. split; [exact H3|].
  exact (fenced_answer_is_read _ _ " 另见 {备注}" _ H1 H2 H3).
Defined.

(** X14: an answer that is one bare object inside prose is read.  If the
    answer has no backtick, the text before the object has no opening brace
    and the text after it no closing brace, and the object is valid JSON,
    the object is returned. *)
Theorem bare_object_is_read (prose inner tail : string) (v : value) :
  includes (prose ++ "{" ++ inner ++ "}" ++ tail) backtick = false ->
  includes prose "{" = false ->
  includes tail "}" = false ->
  JSON_parse ("{" ++ inner ++ "}") = Returns v ->
  extractStructured (prose ++ "{" ++ inner ++ "}" ++ tail) = Returns v.
Proof.
  intros Hfence Hprose Htail Hv.
  assert (Hb : braced_span (prose ++ "{" ++ inner ++ "}" ++ tail) inner).
  { exists prose, (inner ++ "}" ++ tail), tail. split.
    - apply (first_occurrence_head _ "" _ _ Hprose).
    - apply (last_occurrence_tail _ _ _ Htail). }
  rewrite (extract_braced _ _ (no_backtick_no_fence _ Hfence) Hb). now rewrite Hv.
Qed.

Lemma bare_object_is_read_witness :
  includes ("结果：" ++ "{" ++ dq ++ "a" ++ dq ++ ":1" ++ "}" ++ "。") backtick = false
  /\ includes "结果：" "{" = false
  /\ includes "。" "}" = false
  /\ extractStructured ("结果：" ++ "{" ++ dq ++ "a" ++ dq ++ ":1" ++ "}" ++ "。")
     = Returns (VObj [("a", VNum 1 0)]).
Proof.
  assert (H1 : includes ("结果：" ++ "{" ++ (dq ++ "a" ++ dq ++ ":1") ++ "}" ++ "。") backtick
               = false) by (vm_compute; reflexivity).
  assert (H2 : includes "结果：" "{" = false) by (vm_compute; reflexivity).
  assert (H3 : includes "。" "}" = false) by (vm_compute; reflexivity).
  assert (H4 : JSON_parse ("{" ++ (dq ++ "a" ++ dq ++ ":1") ++ "}")
               = Returns (VObj [("a", VNum 1 0)])) by (vm_compute; reflexivity).
  split; [exact H1|]. split; [exact H2|]. split; [exact H3|].
  exact (bare_object_is_read "结果：" (dq ++ "a" ++ dq ++ ":1") "。" _ H1 H2 H3 H4).
Defined.

(** ** Status of the analysis handler; answers passed through *)

(** X15: the analysis handler refuses a request, with status 400 and
    without touching the disk or the model, exactly when no file was
    uploaded; every other request is answered with status 200, so that the
    status 500 of its outer handler is never sent. *)
Theorem analyzeFiles_status (files : option (list UploadedFile)) (w : world) :
  exists resp,
    fst (analyzeFiles files w) = Returns resp
    /\ (status resp = 400 <-> files = None \/ files = Some [])
    /\ (status resp = 400 \/ status resp = 200)
    /\ (status resp = 400 ->
        snd (analyzeFiles files w) = w /\ payload resp = ErrorBody "未上传文件" None).
Proof.
  destruct files as [[|f files]|].
  - eexists. split; [reflexivity|]. simpl. repeat split; auto.
  - destruct (read_loop_world (f :: files) [] w) as [fileContents Hread].
    assert (Hne : f :: files <> []) by discriminate.
    rewrite (analyzeFiles_run _ _ _ _ Hne Hread). unfold analyzeFilesWithDeepSeek.
    destruct (analyze_loop_spec fileContents [] (unlinked w (f :: files)))
      as [(summaries & w' & -> & _)|(e & w' & ->)];
      (eexists; split; [reflexivity|]); simpl;
      (split; [split; [discriminate | intros [H|H]; discriminate H]|]);
      (split; [now right | discriminate]).
  - eexists. split; [reflexivity|]. simpl. repeat split; auto.
Qed.


